(** * cloudflare-gateway-pihole: the domain consolidation engine of src/utils.py

    A shallow embedding of class [App] (src/src/utils.py) and the properties
    its specification states about it.

    Data model.
    - A Python [str] is a Rocq [string]; a character stands for the Unicode
      code point of the same number, so the model covers the texts whose code
      points are below 256 (every canonical domain is plain ASCII).
    - A Python [set[str]] is a [gset string]; a loop over a set is a
      [set_fold], whose visiting order is as unspecified as Python's.
    - A Python [list] is a [list]; an [int] is a [Z].
    - The compiled patterns of [src/__init__.py] and the [idna] codec are
      parameters of the Normalizer.
    - [App.run] talks to the network and to the Cloudflare store: it lives in
      a small monad that threads the state of the outside world, records every
      remote call and log line in a trace, and ends by returning or raising. *)

From Stdlib Require Import Ascii ZArith Lia.
From stdpp Require Import base strings list gmap sorting pretty.

Set Warnings "-clear-no-such-hyp".

Local Open Scope Z_scope.

(** * Part I: the model *)

(** ** Python built-ins used by the source *)

Module Py.

(** [len(l)] on a list and [len(s)] on a string *)
Definition len {A} (l : list A) : Z := Z.of_nat (length l).

Definition strlen (s : string) : Z := Z.of_nat (String.length s).

(** [len(s)] on a set *)
Definition setlen (s : gset string) : Z := Z.of_nat (size s).

(** The code point of a character. *)
Definition ord (c : ascii) : N := N_of_ascii c.

Definition between (lo hi : N) (c : ascii) : bool :=
  ((lo <=? ord c) && (ord c <=? hi))%N.

(** [s.startswith(prefix)] *)
Fixpoint startswith (s prefix : string) {struct prefix} : bool :=
  match prefix, s with
  | "", _ => true
  | String p prefix', String c s' => Ascii.eqb c p && startswith s' prefix'
  | String _ _, "" => false
  end.

(** [s.split(sep)] for a one-character separator: never an empty list. *)
Fixpoint split (sep : ascii) (s : string) : list string :=
  match s with
  | "" => [""]
  | String c s' =>
      if Ascii.eqb c sep then "" :: split sep s'
      else match split sep s' with
           | [] => [String c ""]
           | p :: ps => String c p :: ps
           end
  end.

(** [sep.join(parts)] *)
Fixpoint join (sep : string) (parts : list string) : string :=
  match parts with
  | [] => ""
  | p :: ps =>
      match ps with
      | [] => p
      | _ :: _ => p +:+ sep +:+ join sep ps
      end
  end.

(** [l[0]] on the result of a [split], which is never empty. *)
Definition first (parts : list string) : string := default "" (head parts).

(** [c.lower()] below code point 256: the ASCII capitals and the Latin-1
    capitals (U+00C0..U+00DE but the multiplication sign) move up by 32. *)
Definition lower_char (c : ascii) : ascii :=
  if between 65 90 c || between 192 214 c || between 216 222 c
  then ascii_of_N (ord c + 32) else c.

Fixpoint lower (s : string) : string :=
  match s with
  | "" => ""
  | String c s' => String (lower_char c) (lower s')
  end.

(** [c.isspace()] below code point 256. *)
Definition isspace (c : ascii) : bool :=
  between 9 13 c || between 28 32 c || (ord c =? 133)%N || (ord c =? 160)%N.

Fixpoint lstrip (s : string) : string :=
  match s with
  | "" => ""
  | String c s' => if isspace c then lstrip s' else s
  end.

Fixpoint rstrip (s : string) : string :=
  match s with
  | "" => ""
  | String c s' =>
      match rstrip s' with
      | "" => if isspace c then "" else String c ""
      | r => String c r
      end
  end.

(** [s.strip()] *)
Definition strip (s : string) : string := rstrip (lstrip s).

(** [s.replace(c, "")] for a one-character [c]. *)
Fixpoint remove_all (c : ascii) (s : string) : string :=
  match s with
  | "" => ""
  | String d s' => if Ascii.eqb d c then remove_all c s' else String d (remove_all c s')
  end.

(** The line boundaries of [str.splitlines] below code point 256:
    LF, VT, FF, CR, FS, GS, RS and NEL; CR LF counts once. *)
Definition is_linebreak (c : ascii) : bool :=
  between 10 13 c || between 28 30 c || (ord c =? 133)%N.

(** [cur] is the line being read, its characters in reverse. *)
Fixpoint splitlines_go (cur : string) (s : string) : list string :=
  match s with
  | "" => match cur with "" => [] | _ => [String.rev cur] end
  | String c s' =>
      if is_linebreak c then
        String.rev cur ::
          match s' with
          | String d s'' =>
              if (ord c =? 13)%N && (ord d =? 10)%N
              then splitlines_go "" s''
              else splitlines_go "" s'
          | "" => []
          end
      else splitlines_go (String c cur) s'
  end.

(** [s.splitlines()] *)
Definition splitlines (s : string) : list string := splitlines_go "" s.

(** [sorted(l)] on strings: ascending by code points. *)
Definition sorted (l : list string) : list string := merge_sort String.le l.

(** [range(start, stop, step)]; [None] is the ValueError of a zero step. *)
Definition range (start stop step : Z) : option (list Z) :=
  if step =? 0 then None
  else
    let n := if 0 <? step then (stop - start + step - 1) `div` step
             else (start - stop - step - 1) `div` (- step) in
    Some ((λ k : nat, start + Z.of_nat k * step) <$> seq 0 (Z.to_nat n)).

(** An index of a slice brought into [0 .. len]. *)
Definition slice_index {A} (l : list A) (i : Z) : nat :=
  Z.to_nat (Z.min (len l) (Z.max 0 (if i <? 0 then i + len l else i))).

(** [l[i:j]] *)
Definition slice {A} (l : list A) (i j : Z) : list A :=
  take (slice_index l j - slice_index l i)%nat (drop (slice_index l i) l).

(** [enumerate(l)] *)
Definition enumerate {A} (l : list A) : list (Z * A) :=
  imap (λ i x, (Z.of_nat i, x)) l.

(** [sum(l)] *)
Definition sum (l : list Z) : Z := foldl Z.add 0 l.

(** [str(n)] *)
Definition str (n : Z) : string := pretty n.

End Py.

(** ** Normalizer: [App.convert_domains] *)

Section Normalizer.

(** [replace_pattern.sub("", s, count=1)] *)
Variable replace_pattern_sub : string → string.
(** [s.encode("idna").decode("utf-8", "replace")]; [None] when it raises. *)
Variable idna : string → option string.
(** [domain_pattern.match(s)] and [ip_pattern.match(s)] found a match. *)
Variable domain_pattern_match : string → bool.
Variable ip_pattern_match : string → bool.

Definition convert_domains (line : string) : option string :=
  if Py.startswith line "#" || Py.startswith line "!" || Py.startswith line "/"
     || bool_decide (line = "")
  then None
  else
    let linex :=
      Py.remove_all "013"
        (Py.first (Py.split "^"
           (Py.first (Py.split "#" (Py.strip (Py.lower line)))))) in
    let domain := replace_pattern_sub linex in
    match idna domain with
    | Some domain =>
        if domain_pattern_match domain && negb (ip_pattern_match domain)
        then Some domain
        else None
    | None => None
    end.

(** ** Consolidator: the two loops of [App.convert_to_domain_list] *)

(** [if domain: domains.add(domain)]: [None] and the empty string are
    both false. *)
Definition add_line (domains : gset string) (line : string) : gset string :=
  match convert_domains line with
  | Some domain => if bool_decide (domain = "") then domains else {[ domain ]} ∪ domains
  | None => domains
  end.

Definition collect_domains (content : string) : gset string :=
  foldl add_line ∅ (Py.splitlines content).

(** [d] is what the Normalizer makes of one of the lines, and is not the
    empty string. *)
Definition produced_by (lines : list string) (d : string) : Prop :=
  d ≠ "" ∧ ∃ line, line ∈ lines ∧ convert_domains line = Some d.

End Normalizer.

(** ** RedundancyReducer: [App.remove_subdomains] *)

(** The candidate parents visited by the inner loop of [remove_subdomains]:
    [".".join(parts[i:])] for [i] in [range(1, len(parts))]. *)
Definition higher_domains (subdomain : string) : list string :=
  let parts := Py.split "." subdomain in
  (λ i, Py.join "." (drop i parts)) <$> seq 1 (length parts - 1).

(** First loop: single-label entries go straight to the result, the others
    to [subdomains]. The state is the pair (top_level_domains, subdomains). *)
Definition partition_step (domain : string)
    (st : gset string * gset string) : gset string * gset string :=
  let parts := Py.split "." domain in
  if Py.len parts =? 1 then ({[ domain ]} ∪ st.1, st.2)
  else (st.1, {[ domain ]} ∪ st.2).

(** The inner [for ... break] loop: a short-circuit search that leaves
    [is_subdomain] set when one candidate parent is in [subdomains]. *)
Definition is_subdomain (subdomains : gset string) (subdomain : string) : bool :=
  existsb (λ higher_domain, bool_decide (higher_domain ∈ subdomains))
          (higher_domains subdomain).

(** Second loop body. *)
Definition reduce_step (subdomains : gset string) (subdomain : string)
    (top_level_domains : gset string) : gset string :=
  if negb (is_subdomain subdomains subdomain)
  then {[ subdomain ]} ∪ top_level_domains
  else top_level_domains.

Definition remove_subdomains (domains : gset string) : gset string :=
  let '(top_level_domains, subdomains) :=
    set_fold partition_step (∅, ∅) domains in
  set_fold (reduce_step subdomains) top_level_domains subdomains.

(** ** SetCombiner: the last step of [App.convert_to_domain_list] *)

(** [sorted(list(filtered_domains - white_domains))] *)
Definition final_domains (filtered_domains white_domains : gset string) : list string :=
  Py.sorted (elements (filtered_domains ∖ white_domains)).

Section Consolidator.

Variable replace_pattern_sub : string → string.
Variable idna : string → option string.
Variable domain_pattern_match : string → bool.
Variable ip_pattern_match : string → bool.

(** The list [App.convert_to_domain_list] returns. The method itself, with
    the three counts it logs, comes with [App.run] below. *)
Definition domain_list (block_content white_content : string) : list string :=
  let collect :=
    collect_domains replace_pattern_sub idna domain_pattern_match ip_pattern_match in
  let white_domains := collect white_content in
  let block_domains := collect block_content in
  let filtered_domains := remove_subdomains block_domains in
  final_domains filtered_domains white_domains.

End Consolidator.

(** ** Chunker: [App.chunk_list] *)

(** The generator is modelled by the list of the slices it yields; [None] is
    the ValueError [range] raises for [n = 0]. *)
Definition chunk_list {A} (_list : list A) (n : Z) : option (list (list A)) :=
  match Py.range 0 (Py.len _list) n with
  | Some indices => Some ((λ i, Py.slice _list i (i + n)) <$> indices)
  | None => None
  end.

(** ** The domain grammar of the specification *)

(** Modelled from the spec: the grammar of a Domain ("labels separated by
    [.], each label alphanumeric/hyphen, no leading/trailing hyphen"). The
    compiled [domain_pattern] of src/__init__.py is not part of the sources
    at hand; it stays a parameter of the Normalizer, and this predicate only
    says what the specification calls a well-formed domain. *)
Definition is_alnum (c : ascii) : bool :=
  Py.between 48 57 c || Py.between 65 90 c || Py.between 97 122 c.

Definition label_char (c : ascii) : bool := is_alnum c || Ascii.eqb c "-".

Fixpoint all_chars (p : ascii → bool) (s : string) : bool :=
  match s with
  | "" => true
  | String c s' => p c && all_chars p s'
  end.

Fixpoint last_char (s : string) : option ascii :=
  match s with
  | "" => None
  | String c s' => match last_char s' with None => Some c | Some d => Some d end
  end.

Definition label_ok (label : string) : bool :=
  match label with
  | "" => false
  | String c _ =>
      all_chars label_char label && negb (Ascii.eqb c "-")
      && negb (bool_decide (last_char label = Some "-"%char))
  end.

Definition domain_grammar (s : string) : bool :=
  forallb label_ok (Py.split "." s).

(** The characters a well-formed domain is made of. *)
Definition domain_char (c : ascii) : bool := label_char c || Ascii.eqb c ".".

(** ** Specification vocabulary for sub-domains *)

(** [a] is a strict sub-domain of [b]: [b] is a proper suffix of [a] that
    starts right after one of the dots of [a]. *)
Definition strict_subdomain (a b : string) : Prop :=
  ∃ x, a = x +:+ "." +:+ b.

(** A single-label domain has no dot. *)
Definition single_label (d : string) : Prop := length (Py.split "." d) = 1%nat.

#[global] Instance single_label_dec d : Decision (single_label d) :=
  decide (length (Py.split "." d) = 1%nat).

(** ** The outside world of [App.run] *)

(** A RemoteListRecord and a RemotePolicyRecord, as the store returns them
    (the dictionaries [l] and [cf_policies[0]] of the source, read at the keys
    ["id"], ["name"] and ["count"]). *)
Record cf_list := { list_id : string; list_name : string; list_count : Z }.

Record cf_policy :=
  { policy_id : string; policy_name : string; policy_lists : list string }.

(** The remote calls of [run]: the download of a source file and the
    functions of the [cloudflare] module. *)
Inductive call : Type :=
  | session_get (url : string)
  | get_lists (name_prefix : string)
  | get_firewall_policies (name_prefix : string)
  | create_gateway_policy (name : string) (list_ids : list string)
  | update_gateway_policy (name policy_id : string) (list_ids : list string)
  | delete_gateway_policy (policy_prefix : string)
  | delete_list (name list_id : string)
  | create_list (name : string) (domains : list string).

Definition reply (c : call) : Type :=
  match c with
  | session_get _ => string
  | get_lists _ => list cf_list
  | get_firewall_policies _ => list cf_policy
  | create_gateway_policy _ _ => cf_policy
  | update_gateway_policy _ _ _ => unit
  | delete_gateway_policy _ => Z
  | delete_list _ _ => unit
  | create_list _ _ => cf_list
  end.

(** The calls that change the remote store. *)
Definition mutates (c : call) : bool :=
  match c with
  | session_get _ | get_lists _ | get_firewall_policies _ => false
  | _ => true
  end.

Inductive level : Type := INFO | WARNING | ERROR.

Inductive event : Type :=
  | Called (c : call)
  | Logged (lvl : level) (msg : string).

Inductive outcome (A : Type) : Type :=
  | Returned (a : A)
  | Raised (msg : string).
Arguments Returned {A} a.
Arguments Raised {A} msg.

(** The collaborators answer every call and move to their next state. A
    collaborator that fails (a transport error) is outside the model: the
    only exception below is the one [run] raises itself. *)
Class Remote (W : Type) := handle : ∀ c : call, W → reply c * W.

(** A computation of [run]: from a state of the world to an outcome, the
    next state and the events it produced, oldest first. *)
Definition M (W A : Type) : Type := W → outcome A * W * list event.

#[global] Instance M_ret {W} : MRet (M W) := λ A a w, (Returned a, w, []).

#[global] Instance M_bind {W} : MBind (M W) := λ A B f m w,
  match m w with
  | (Returned a, w1, t1) =>
      match f a w1 with
      | (o, w2, t2) => (o, w2, t1 ++ t2)
      end
  | (Raised msg, w1, t1) => (Raised msg, w1, t1)
  end.

(** [raise Exception(msg)] *)
Definition raise {W A} (msg : string) : M W A := λ w, (Raised msg, w, []).

(** [logging.info], [logging.warning] and [logging.error] *)
Definition logging {W} (lvl : level) (msg : string) : M W unit :=
  λ w, (Returned tt, w, [Logged lvl msg]).

(** [await] of one remote call *)
Definition await {W} `{!Remote W} (c : call) : M W (reply c) :=
  λ w, match handle c w with (r, w') => (Returned r, w', [Called c]) end.

(** A [for] loop whose body appends one value per element. *)
Fixpoint for_each {W A B} (l : list A) (body : A → M W B) : M W (list B) :=
  match l with
  | [] => mret []
  | x :: l' => y ← body x; ys ← for_each l' body; mret (y :: ys)
  end.

(** [await asyncio.gather] of a list of tasks: on the single-threaded event loop the
    tasks are started in list order; the model runs each to its end before
    the next and returns the results in that order. *)
Definition gather {W A} (tasks : list (M W A)) : M W (list A) :=
  for_each tasks id.

(** The remote calls of a trace, in order. *)
Definition calls (t : list event) : list call :=
  omap (λ e, match e with Called c => Some c | Logged _ _ => None end) t.

(** ** Reconciler: [App.run] *)

Record App :=
  { adlist_name : string; adlist_urls : list string; whitelist_urls : list string }.

(** [self.name_prefix = f"[AdBlock-{adlist_name}]"] *)
Definition name_prefix (self : App) : string :=
  "[AdBlock-" +:+ adlist_name self +:+ "]".

Section Run.

Context {W : Type} `{!Remote W}.

Variable replace_pattern_sub : string → string.
Variable idna : string → option string.
Variable domain_pattern_match : string → bool.
Variable ip_pattern_match : string → bool.

(** [App.download_file] *)
Definition download_file (url : string) : M W string :=
  text ← await (session_get url);
  logging INFO ("Downloaded file from " +:+ url +:+ " File size: "
                +:+ Py.str (Py.strlen text));;
  mret text.

(** Lines 18-22 of [run]: every source is fetched, block lists first. *)
Definition download_all (self : App) : M W (list string) :=
  let all_urls := adlist_urls self ++ whitelist_urls self in
  let download_tasks := download_file <$> all_urls in
  gather download_tasks.

(** [App.convert_to_domain_list] *)
Definition convert_to_domain_list (block_content white_content : string)
    : M W (list string) :=
  let collect :=
    collect_domains replace_pattern_sub idna domain_pattern_match ip_pattern_match in
  let white_domains := collect white_content in
  logging INFO ("Number of white domains: " +:+ Py.str (Py.setlen white_domains));;
  let block_domains := collect block_content in
  let filtered_domains := remove_subdomains block_domains in
  logging INFO ("Number of block domains: " +:+ Py.str (Py.setlen filtered_domains));;
  let final_domains := final_domains filtered_domains white_domains in
  logging INFO ("Number of final domains: " +:+ Py.str (Py.len final_domains));;
  mret final_domains.

(** Lines 17-26: the sources are fetched, [results[:n]] and [results[n:]]
    are joined and handed to [convert_to_domain_list]. *)
Definition compute_domains (self : App) : M W (list string) :=
  results ← download_all self;
  let block_content := Py.join "" (take (length (adlist_urls self)) results) in
  let white_content := Py.join "" (drop (length (adlist_urls self)) results) in
  convert_to_domain_list block_content white_content.

(** Lines 45-57: the sizes match, only the policy is looked at. *)
Definition check_policy (self : App) (cf_lists : list cf_list) : M W unit :=
  logging WARNING "Lists are the same size, checking policy";;
  cf_policies ← await (get_firewall_policies (name_prefix self));
  if Py.len (cf_policies : list cf_policy) =? 0 then
    logging INFO "No firewall policy found, creating new policy";;
    _ ← await (create_gateway_policy
                 (name_prefix self +:+ " Block Ads") (list_id <$> cf_lists));
    mret tt
  else
    logging WARNING "Firewall policy already exists, exiting script".

(** Lines 59-78: the old policy and lists are deleted, the new lists are
    created, one per chunk of 1000 domains. *)
Definition rebuild_lists (self : App) (domains : list string)
    (cf_lists : list cf_list) : M W (list cf_list) :=
  let policy_prefix := name_prefix self +:+ " Block Ads" in
  deleted_policies ← await (delete_gateway_policy policy_prefix);
  logging INFO ("Deleted " +:+ Py.str deleted_policies +:+ " gateway policies");;
  delete_list_tasks ← for_each cf_lists (λ l,
    logging INFO ("Deleting list " +:+ list_name l +:+ " - ID:" +:+ list_id l +:+ " ");;
    mret (await (delete_list (list_name l) (list_id l)) : M W unit));
  gather delete_list_tasks;;
  match chunk_list domains 1000 with
  | None => raise "ValueError"
  | Some chunks =>
      create_list_tasks ← for_each (Py.enumerate chunks) (λ '(i, chunk),
        let list_name := name_prefix self +:+ " " +:+ Py.str (i + 1) in
        logging INFO ("Creating list " +:+ list_name);;
        mret (await (create_list list_name chunk) : M W cf_list));
      gather create_list_tasks
  end.

(** Lines 80-100: the policy is created or updated to point at the new
    lists. *)
Definition setup_policy (self : App) (cf_lists : list cf_list) : M W unit :=
  let policy_prefix := name_prefix self +:+ " Block Ads" in
  cf_policies ← await (get_firewall_policies (name_prefix self));
  logging INFO ("Number of policies in Cloudflare: "
                +:+ Py.str (Py.len (cf_policies : list cf_policy)));;
  (if Py.len cf_policies =? 0 then
     logging INFO "Creating firewall policy";;
     _ ← await (create_gateway_policy policy_prefix (list_id <$> cf_lists));
     mret tt
   else if negb (Py.len cf_policies =? 1) then
     logging ERROR "More than one firewall policy found";;
     raise "More than one firewall policy found"
   else
     logging INFO "Updating firewall policy";;
     match cf_policies !! 0%nat with
     | Some policy =>
         await (update_gateway_policy (name_prefix self +:+ " Block Ads")
                  (policy_id policy) (list_id <$> cf_lists))
     | None => raise "IndexError"
     end);;
  logging INFO "Done".

(** Lines 28-100: the size guards and the decision. *)
Definition reconcile (self : App) (domains : list string) : M W unit :=
  if Py.len domains =? 0 then
    logging WARNING "No domains found in the adlist file. Exiting script."
  else if 300000 <? Py.len domains then
    logging WARNING "The number of final domains exceeds the limit. Exiting script."
  else
    cf_lists ← await (get_lists (name_prefix self));
    logging INFO ("Number of lists in Cloudflare: "
                  +:+ Py.str (Py.len (cf_lists : list cf_list)));;
    if Py.len domains =? Py.sum (list_count <$> cf_lists) then
      check_policy self cf_lists
    else
      cf_lists ← rebuild_lists self domains cf_lists;
      setup_policy self cf_lists.

(** [App.run] *)
Definition run (self : App) : M W unit :=
  domains ← compute_domains self;
  reconcile self domains.

(** [App.delete] *)
Definition delete (self : App) : M W unit :=
  let policy_prefix := name_prefix self +:+ " Block Ads" in
  deleted_policies ← await (delete_gateway_policy policy_prefix);
  logging INFO ("Deleted " +:+ Py.str deleted_policies +:+ " gateway policies");;
  cf_lists ← await (get_lists (name_prefix self));
  delete_list_tasks ← for_each (cf_lists : list cf_list) (λ l,
    logging INFO ("Deleting list " +:+ list_name l +:+ " - ID:" +:+ list_id l +:+ " ");;
    mret (await (delete_list (list_name l) (list_id l)) : M W unit));
  gather delete_list_tasks;;
  logging INFO "Deletion completed".

End Run.

(** ** Concrete collaborators, for running the model *)

(** Modelled from the spec: the remote list/policy store behind the
    [cloudflare] module, which is not part of the sources at hand. Its
    operations follow the logical interface of the specification
    ([getLists(namespacePrefix)], [createList(name, domains)],
    [deleteList(name, id)], [getPolicies(namespacePrefix)],
    [createPolicy(name, listIds)], [updatePolicy(name, id, listIds)],
    [deletePolicy(namePrefix) -> countDeleted]); names are matched by prefix
    and identifiers come from a counter. The theorems on [run] hold for every
    [Remote]; this one serves the concrete runs. *)
Module Store.

Record t :=
  { files : gmap string string;
    lists : list cf_list;
    policies : list cf_policy;
    next_id : Z }.

Definition named (prefix : string) (name : string) : bool :=
  Py.startswith name prefix.

Definition handle_call (c : call) : t → reply c * t :=
  match c as c' return t → reply c' * t with
  | session_get url => λ s,
      (default "" (files s !! url), s)
  | get_lists prefix => λ s,
      (filter (λ l, named prefix (list_name l) = true) (lists s), s)
  | get_firewall_policies prefix => λ s,
      (filter (λ p, named prefix (policy_name p) = true) (policies s), s)
  | create_gateway_policy name list_ids => λ s,
      let p := {| policy_id := "policy-" +:+ Py.str (next_id s);
                  policy_name := name; policy_lists := list_ids |} in
      (p, {| files := files s; lists := lists s;
             policies := policies s ++ [p]; next_id := next_id s + 1 |})
  | update_gateway_policy name id list_ids => λ s,
      (tt, {| files := files s; lists := lists s;
              policies :=
                (λ p, if bool_decide (policy_id p = id)
                      then {| policy_id := id; policy_name := name;
                              policy_lists := list_ids |}
                      else p) <$> policies s;
              next_id := next_id s |})
  | delete_gateway_policy prefix => λ s,
      (Py.len (filter (λ p, named prefix (policy_name p) = true) (policies s)),
       {| files := files s; lists := lists s;
          policies := filter (λ p, named prefix (policy_name p) = false) (policies s);
          next_id := next_id s |})
  | delete_list name id => λ s,
      (tt, {| files := files s;
              lists := filter (λ l, list_id l ≠ id) (lists s);
              policies := policies s; next_id := next_id s |})
  | create_list name domains => λ s,
      let l := {| list_id := "list-" +:+ Py.str (next_id s);
                  list_name := name; list_count := Py.len domains |} in
      (l, {| files := files s; lists := lists s ++ [l];
             policies := policies s; next_id := next_id s + 1 |})
  end.

#[global] Instance remote : Remote t := handle_call.

End Store.

(** Modelled from the spec: stand-ins for the compiled patterns of
    src/__init__.py and for the [idna] codec, which are not part of the
    sources at hand. They cover the forms the specification names (a
    hosts-file address token, the adblock [||] wrapper, a dotted-quad IPv4
    literal, pure-ASCII names) and serve the concrete runs; the theorems on the
    Normalizer hold for every choice of the four parameters. *)
Module Patterns.

Definition is_digit (c : ascii) : bool := Py.between 48 57 c.

Definition octet (s : string) : bool :=
  all_chars is_digit s
  && bool_decide (1 ≤ String.length s)%nat && bool_decide (String.length s ≤ 3)%nat.

(** a dotted quad *)
Definition ip_pattern_match (s : string) : bool :=
  match Py.split "." s with
  | [a; b; c; d] => octet a && octet b && octet c && octet d
  | _ => false
  end.

Fixpoint drop_chars (n : nat) (s : string) : string :=
  match n, s with
  | S n', String _ s' => drop_chars n' s'
  | _, _ => s
  end.

(** The text before the first blank, and the text after the blanks that
    follow it. *)
Fixpoint leading_token (s : string) : string * option string :=
  match s with
  | "" => ("", None)
  | String c s' =>
      if Py.isspace c then ("", Some (Py.lstrip s'))
      else match leading_token s' with (tok, rest) => (String c tok, rest) end
  end.

(** One decoration is removed at most: the [||] wrapper, or an address
    token followed by blanks. *)
Definition replace_pattern_sub (s : string) : string :=
  if Py.startswith s "||" then drop_chars 2 s
  else match leading_token s with
       | (tok, Some rest) => if ip_pattern_match tok then rest else s
       | (_, None) => s
       end.

(** The codec on a pure-ASCII name: the name itself when its labels have
    1 to 63 characters (the last may be empty), an error otherwise. Other
    names are left out of this stand-in. *)
Definition idna (s : string) : option string :=
  let labels := Py.split "." s in
  let short (l : string) := bool_decide (String.length l < 64)%nat in
  let full (l : string) := bool_decide (0 < String.length l)%nat && short l in
  if bool_decide (s = "") then Some ""
  else if all_chars (Py.between 0 127) s
          && forallb full (removelast labels)
          && forallb short (drop (length labels - 1) labels)
  then Some s else None.

Definition domain_pattern_match (s : string) : bool := domain_grammar s.

Definition convert_domains : string → option string :=
  convert_domains replace_pattern_sub idna domain_pattern_match ip_pattern_match.

Definition domain_list : string → string → list string :=
  domain_list replace_pattern_sub idna domain_pattern_match ip_pattern_match.

Definition run (self : App) : M Store.t unit :=
  run replace_pattern_sub idna domain_pattern_match ip_pattern_match self.

End Patterns.

(** A line feed, to write texts of several lines. *)
Definition lf : string := String "010" "".

(** ** Statements of the specification, as it words them *)

(** The redundancy invariant as the specification words it: no entry of the
    reducer's output is a strict sub-domain of another entry of the output,
    nor of any entry of the input, single-label entries included. *)
Definition redundancy_free (domains : gset string) : Prop :=
  let output := remove_subdomains domains in
  (∀ a b, a ∈ output → b ∈ output → ¬ strict_subdomain a b) ∧
  (∀ a b, a ∈ output → b ∈ domains → ¬ strict_subdomain a b).

(** The remote calls of the rebuild, in order: the policy deletion, one
    deletion per old list, one creation per chunk. *)
Definition rebuild_calls (self : App) (chunks : list (list string))
    (cf_lists : list cf_list) : list call :=
  delete_gateway_policy (name_prefix self +:+ " Block Ads")
  :: ((λ l, delete_list (list_name l) (list_id l)) <$> cf_lists)
  ++ ((λ p : Z * list string,
         create_list (name_prefix self +:+ " " +:+ Py.str (p.1 + 1)) p.2)
        <$> Py.enumerate chunks).

(** The lists a trace creates: the name and the domains of each
    [create_list] call, in order. *)
Definition created_lists (t : list event) : list (string * list string) :=
  omap (λ c, match c with
             | create_list name domains => Some (name, domains)
             | _ => None
             end) (calls t).

Section RunStatements.

Context {W : Type} `{!Remote W}.

Variable replace_pattern_sub : string → string.
Variable idna : string → option string.
Variable domain_pattern_match : string → bool.
Variable ip_pattern_match : string → bool.

(** From the state [w], the run downloads its sources, computes [domains]
    as its final list and stands in the state [w1]. *)
Definition computes (self : App) (w : W) (domains : list string) (w1 : W) : Prop :=
  ∃ t1,
    compute_domains replace_pattern_sub idna domain_pattern_match
      ip_pattern_match self w = (Returned domains, w1, t1).

(** In the state [w1] the store holds the lists [cf_lists] for the
    namespace, their item counts sum up to the size of [domains], and it
    holds no policy for the namespace. *)
Definition in_sync_without_policy (self : App) (w1 : W)
    (cf_lists : list cf_list) (domains : list string) : Prop :=
  ∃ w2 w3,
    handle (get_lists (name_prefix self)) w1 = (cf_lists, w2) ∧
    Py.sum (list_count <$> cf_lists) = Py.len domains ∧
    handle (get_firewall_policies (name_prefix self)) w2 = ([], w3).

(** The run returns, and its remote calls are the downloads, the two
    reads and the creation of one policy over the lists [cf_lists]. *)
Definition creates_policy_only (self : App) (w : W)
    (cf_lists : list cf_list) : Prop :=
  ∃ w' t,
    run replace_pattern_sub idna domain_pattern_match ip_pattern_match self w
      = (Returned tt, w', t) ∧
    calls t =
      (session_get <$> (adlist_urls self ++ whitelist_urls self))
      ++ [get_lists (name_prefix self);
          get_firewall_policies (name_prefix self);
          create_gateway_policy (name_prefix self +:+ " Block Ads")
            (list_id <$> cf_lists)].

(** In the state [w] the store holds more than one policy for the
    namespace. *)
Definition holds_multiple_policies (self : App) (w : W) : Prop :=
  ∃ (cf_policies : list cf_policy) w',
    handle (get_firewall_policies (name_prefix self)) w = (cf_policies, w') ∧
    1 < Py.len cf_policies.

(** The run raises the multiple-policies error and none of its remote
    calls changes the store. *)
Definition fatal_without_mutation (self : App) (w : W) : Prop :=
  ∃ w' t,
    run replace_pattern_sub idna domain_pattern_match ip_pattern_match self w
      = (Raised "More than one firewall policy found", w', t) ∧
    Forall (λ c, mutates c = false) (calls t).

End RunStatements.

(** ** Concrete runs *)

Module Demo.

Definition block_url : string := "https://lists.test/block.txt".
Definition allow_url : string := "https://lists.test/allow.txt".

Definition app : App :=
  {| adlist_name := "ads"; adlist_urls := [block_url]; whitelist_urls := [allow_url] |}.

(** Four block lines, one of them redundant and one allowed: the final
    list is [example.com; malware.test]. *)
Definition feed : gmap string string :=
  {[ block_url := "ads.example.com" +:+ lf +:+ "example.com" +:+ lf
                  +:+ "tracker.io" +:+ lf +:+ "0.0.0.0 malware.test" +:+ lf;
     allow_url := "tracker.io" +:+ lf ]}.

(** Nothing but comments. *)
Definition empty_feed : gmap string string :=
  {[ block_url := "# no entry today" +:+ lf; allow_url := "" ]}.

Definition old_list : cf_list :=
  {| list_id := "list-7"; list_name := "[AdBlock-ads] 1"; list_count := 2 |}.

Definition policy (id name : string) : cf_policy :=
  {| policy_id := id; policy_name := name; policy_lists := ["list-7"] |}.

(** A fresh namespace and an empty feed. *)
Definition fresh_empty : Store.t :=
  {| Store.files := empty_feed; Store.lists := []; Store.policies := [];
     Store.next_id := 1 |}.

(** The lists are in place, the policy is missing. *)
Definition lists_without_policy : Store.t :=
  {| Store.files := feed; Store.lists := [old_list]; Store.policies := [];
     Store.next_id := 8 |}.

(** The lists are in place, with two policies of the script's name. *)
Definition in_sync_two_policies : Store.t :=
  {| Store.files := feed; Store.lists := [old_list];
     Store.policies := [policy "policy-8" "[AdBlock-ads] Block Ads";
                        policy "policy-9" "[AdBlock-ads] Block Ads"];
     Store.next_id := 10 |}.

(** No list yet, and two policies of the namespace that the script's policy
    name does not cover. *)
Definition stale_two_policies : Store.t :=
  {| Store.files := feed; Store.lists := [];
     Store.policies := [policy "policy-8" "[AdBlock-ads] Legacy A";
                        policy "policy-9" "[AdBlock-ads] Legacy B"];
     Store.next_id := 10 |}.

(** A fresh namespace and the feed of two domains. *)
Definition fresh : Store.t :=
  {| Store.files := feed; Store.lists := []; Store.policies := [];
     Store.next_id := 1 |}.

(** No list yet, and one policy of the namespace that the script's policy
    name does not cover. *)
Definition stale_one_policy : Store.t :=
  {| Store.files := feed; Store.lists := [];
     Store.policies := [policy "policy-8" "[AdBlock-ads] Legacy A"];
     Store.next_id := 10 |}.

End Demo.

(** * Part II: properties *)

(** ** Strings *)

(** [String.append] is kept folded by [simpl]; its two equations are
    collected in a rewrite database instead. *)
Lemma str_app_nil s : "" +:+ s = s.
Proof. reflexivity. Qed.

Lemma str_app_cons c s t : String c s +:+ t = String c (s +:+ t).
Proof. reflexivity. Qed.

Create Rewrite HintDb str.
Hint Rewrite str_app_nil str_app_cons : str.

Ltac str_simpl := autorewrite with str in *.

Lemma str_app_assoc (s t u : string) : (s +:+ t) +:+ u = s +:+ t +:+ u.
Proof. induction s as [|c s IH]; str_simpl; [done|]. by rewrite IH. Qed.

Lemma split_nonempty sep s : Py.split sep s ≠ [].
Proof.
  destruct s as [|c s]; simpl; [done|].
  destruct (Ascii.eqb c sep); [done|]. by destruct (Py.split sep s).
Qed.

Lemma join_split s : Py.join "." (Py.split "." s) = s.
Proof.
  induction s as [|c s IH]; [done|]. simpl.
  destruct (Ascii.eqb_spec c ".") as [->|Hne].
  - pose proof (split_nonempty "." s) as Hs. simpl.
    destruct (Py.split "." s) eqn:E; [done|]. by rewrite IH.
  - pose proof (split_nonempty "." s) as Hs.
    destruct (Py.split "." s) as [|p ps] eqn:E; [done|].
    simpl in *. destruct ps; simpl; by rewrite <- IH.
Qed.

(** ** Parents of a domain *)

Lemma higher_domains_cons c s :
  higher_domains (String c s) =
    if Ascii.eqb c "." then s :: higher_domains s else higher_domains s.
Proof.
  unfold higher_domains. simpl Py.split.
  pose proof (split_nonempty "." s) as Hs.
  destruct (Ascii.eqb c ".").
  - destruct (Py.split "." s) as [|p ps] eqn:E; [done|].
    cbn [length]. replace (S (S (length ps)) - 1)%nat with (S (S (length ps) - 1)) by lia.
    cbn [seq fmap list_fmap]. f_equal.
    + cbn [drop]. by rewrite <- E, join_split.
    + rewrite <- seq_shift, <- list_fmap_compose. done.
  - destruct (Py.split "." s) as [|p ps] eqn:E; [done|].
    cbn [length]. apply list_fmap_ext. intros i x Hx.
    apply lookup_seq in Hx as [-> _]. done.
Qed.

(** The loop over [range(1, len(parts))] visits exactly the strict
    parents of the domain. *)
Lemma elem_of_higher_domains a b :
  b ∈ higher_domains a ↔ strict_subdomain a b.
Proof.
  unfold strict_subdomain. induction a as [|c a IH].
  - split; [by intros ?%elem_of_nil|]. intros [[|??] ?]; str_simpl; discriminate.
  - rewrite higher_domains_cons. destruct (Ascii.eqb_spec c ".") as [->|Hne].
    + rewrite elem_of_cons, IH. split.
      * intros [->|[x ->]]; [by exists ""|by exists (String "." x)].
      * intros [[|c' x] Hx]; str_simpl; simplify_eq; [by left|right; eauto].
    + rewrite IH. split.
      * intros [x ->]. by exists (String c x).
      * intros [[|c' x] Hx]; str_simpl; simplify_eq. eauto.
Qed.

Lemma strict_subdomain_shorter a b :
  strict_subdomain a b → (String.length b < String.length a)%nat.
Proof.
  intros [x ->]. induction x as [|c x IH]; str_simpl; simpl; lia.
Qed.

Lemma strict_subdomain_trans a b c :
  strict_subdomain a b → strict_subdomain b c → strict_subdomain a c.
Proof.
  intros [x ->] [y ->]. exists (x +:+ "." +:+ y).
  by rewrite !str_app_assoc.
Qed.

Lemma single_label_no_parent a b : single_label a → ¬ strict_subdomain a b.
Proof.
  unfold single_label. intros Hlen Hsub%elem_of_higher_domains.
  unfold higher_domains in Hsub. rewrite Hlen in Hsub.
  by apply elem_of_nil in Hsub.
Qed.

(** ** The two loops of [remove_subdomains] *)

Lemma is_subdomain_true subdomains d :
  is_subdomain subdomains d = true ↔
  ∃ b, b ∈ subdomains ∧ strict_subdomain d b.
Proof.
  unfold is_subdomain. rewrite existsb_exists. split.
  - intros (b & Hin & Hb). exists b. apply bool_decide_eq_true in Hb.
    split; [done|]. by apply elem_of_higher_domains, list_elem_of_In.
  - intros (b & Hb & Hsub). exists b. split.
    + by apply list_elem_of_In, elem_of_higher_domains.
    + by apply bool_decide_eq_true.
Qed.

Lemma len_is_1 (parts : list string) :
  (Py.len parts =? 1) = bool_decide (length parts = 1%nat).
Proof.
  unfold Py.len. destruct (Z.eqb_spec (Z.of_nat (length parts)) 1);
    [rewrite bool_decide_eq_true_2|rewrite bool_decide_eq_false_2]; lia.
Qed.

Lemma partition_spec (domains : gset string) x :
  let st := set_fold partition_step (∅, ∅) domains in
  (x ∈ st.1 ↔ x ∈ domains ∧ single_label x) ∧
  (x ∈ st.2 ↔ x ∈ domains ∧ ¬ single_label x).
Proof.
  cbv zeta.
  apply (set_fold_ind_L (λ (st : gset string * gset string) (X : gset string),
    (x ∈ st.1 ↔ x ∈ X ∧ single_label x) ∧ (x ∈ st.2 ↔ x ∈ X ∧ ¬ single_label x))).
  - simpl. set_solver.
  - intros d X [top sub] Hd [IH1 IH2]. unfold partition_step.
    rewrite len_is_1. fold (single_label d). simpl in *.
    case_bool_decide; simpl; set_solver.
Qed.

Lemma reduce_spec (subdomains top X : gset string) x :
  x ∈ set_fold (reduce_step subdomains) top X ↔
  x ∈ top ∨ (x ∈ X ∧ is_subdomain subdomains x = false).
Proof.
  apply (set_fold_ind_L (λ (r : gset string) (X : gset string),
    x ∈ r ↔ x ∈ top ∨ (x ∈ X ∧ is_subdomain subdomains x = false))).
  - set_solver.
  - intros d Y r Hd IH. unfold reduce_step.
    destruct (is_subdomain subdomains d) eqn:E; simpl;
      rewrite ?elem_of_union, ?elem_of_singleton, IH;
      intuition (subst; congruence).
Qed.

(** Membership in the result, read off the two loops: a domain is kept when
    none of its strict parents is a multi-label entry of the input. *)
Lemma elem_of_remove_subdomains (domains : gset string) x :
  x ∈ remove_subdomains domains ↔
  x ∈ domains ∧
  ∀ b, b ∈ domains → ¬ single_label b → ¬ strict_subdomain x b.
Proof.
  unfold remove_subdomains.
  pose proof (partition_spec domains) as Hp. cbv zeta in Hp.
  destruct (set_fold partition_step (∅, ∅) domains) as [top sub]. simpl in Hp.
  rewrite reduce_spec. split.
  - intros [Htop|[Hsub Hno]].
    + apply Hp in Htop as [Hin Hsingle]. split; [done|].
      intros b _ _. by apply single_label_no_parent.
    + apply Hp in Hsub as [Hin Hmulti]. split; [done|].
      intros b Hb Hbm Hstrict.
      assert (is_subdomain sub x = true) as Ht; [|congruence].
      apply is_subdomain_true. exists b. split; [|done]. by apply Hp.
  - intros [Hin Hno]. destruct (decide (single_label x)) as [Hs|Hs].
    + left. by apply Hp.
    + right. split; [by apply Hp|].
      destruct (is_subdomain sub x) eqn:E; [|done].
      apply is_subdomain_true in E as (b & Hb & Hstrict).
      apply Hp in Hb as [Hb Hbm]. by destruct (Hno b).
Qed.

(** A domain that is dropped has a multi-label parent in the input. *)
Lemma dropped_has_parent (domains : gset string) x :
  x ∈ domains → x ∉ remove_subdomains domains →
  ∃ b, b ∈ domains ∧ ¬ single_label b ∧ strict_subdomain x b.
Proof.
  intros Hin Hout. unfold remove_subdomains in Hout.
  pose proof (partition_spec domains) as Hp. cbv zeta in Hp.
  destruct (set_fold partition_step (∅, ∅) domains) as [top sub]. simpl in Hp.
  rewrite reduce_spec in Hout.
  destruct (decide (single_label x)) as [Hs|Hs].
  { destruct Hout. left. by apply Hp. }
  destruct (is_subdomain sub x) eqn:E.
  - apply is_subdomain_true in E as (b & Hb & Hstrict).
    apply Hp in Hb as [Hb Hbm]. eauto.
  - destruct Hout. right. split; [by apply Hp|done].
Qed.

(** ** Slices and chunks *)

Lemma slice_nonneg {A} (l : list A) (i j : Z) :
  0 ≤ i → 0 ≤ j →
  Py.slice l i j = take (Z.to_nat j - Z.to_nat i) (drop (Z.to_nat i) l).
Proof.
  intros Hi Hj. unfold Py.slice, Py.slice_index, Py.len.
  destruct (Z.ltb_spec i 0), (Z.ltb_spec j 0); try lia.
  destruct (decide (length l ≤ Z.to_nat i)%nat) as [Hge|Hlt].
  - replace (Z.to_nat (Z.of_nat (length l) `min` (0 `max` i))) with (length l) by lia.
    rewrite !drop_ge by lia. by rewrite !take_nil.
  - replace (Z.to_nat (Z.of_nat (length l) `min` (0 `max` i))) with (Z.to_nat i) by lia.
    destruct (decide (Z.to_nat j ≤ length l)%nat) as [Hj'|Hj'].
    + f_equal. lia.
    + rewrite !take_ge; [done| |]; rewrite length_drop; lia.
Qed.

Lemma range_from_0 (stop step : Z) :
  0 < step →
  Py.range 0 stop step =
    Some ((λ k : nat, Z.of_nat k * step)
            <$> seq 0 (Z.to_nat ((stop + step - 1) `div` step))).
Proof.
  intros Hstep. unfold Py.range.
  destruct (Z.eqb_spec step 0); [lia|].
  destruct (Z.ltb_spec 0 step); [|lia].
  by rewrite Z.sub_0_r.
Qed.

(** The chunks of a positive size, by position. *)
Lemma chunk_list_pos {A} (l : list A) (n : Z) :
  0 < n →
  chunk_list l n =
    Some ((λ k : nat, take (Z.to_nat n) (drop (k * Z.to_nat n) l))
            <$> seq 0 (Z.to_nat ((Py.len l + n - 1) `div` n))).
Proof.
  intros Hn. unfold chunk_list. rewrite range_from_0 by done.
  f_equal. rewrite <- list_fmap_compose. apply list_fmap_ext.
  intros _ k _. simpl. rewrite slice_nonneg by lia. f_equal; [|f_equal]; nia.
Qed.

Lemma concat_chunks {A} (n m : nat) (l : list A) :
  (length l ≤ m * n)%nat →
  concat ((λ k : nat, take n (drop (k * n) l)) <$> seq 0 m) = l.
Proof.
  revert l. induction m as [|m IH]; intros l Hlen.
  - destruct l; [done|]. simpl in Hlen. lia.
  - cbn [seq fmap list_fmap concat]. rewrite <- fmap_S_seq, <- list_fmap_compose.
    rewrite (list_fmap_ext _ (λ k : nat, take n (drop (k * n) (drop n l))) (seq 0 m)).
    + rewrite IH; [apply take_drop|]. rewrite length_drop. lia.
    + intros _ k _. simpl. rewrite drop_drop. done.
Qed.

Lemma num_chunks_bounds (len n : Z) (k : nat) :
  0 < n → 0 ≤ len →
  (k < Z.to_nat ((len + n - 1) `div` n))%nat →
  Z.of_nat k * n < len.
Proof.
  intros Hn Hlen Hk.
  pose proof (Z.mul_div_le (len + n - 1) n Hn). nia.
Qed.

Lemma num_chunks_enough (len n : Z) :
  0 < n → 0 ≤ len →
  len ≤ Z.of_nat (Z.to_nat ((len + n - 1) `div` n)) * n.
Proof.
  intros Hn Hlen.
  pose proof (Z.mul_succ_div_gt (len + n - 1) n Hn).
  assert (0 ≤ (len + n - 1) `div` n) by (apply Z.div_pos; lia).
  nia.
Qed.

(** ** The sorted difference *)

Lemma final_domains_Permutation (filtered white : gset string) :
  final_domains filtered white ≡ₚ elements (filtered ∖ white).
Proof. apply merge_sort_Permutation. Qed.

Lemma elem_of_final_domains (filtered white : gset string) d :
  d ∈ final_domains filtered white ↔ d ∈ filtered ∧ d ∉ white.
Proof.
  rewrite final_domains_Permutation, elem_of_elements. apply elem_of_difference.
Qed.

Lemma NoDup_final_domains (filtered white : gset string) :
  NoDup (final_domains filtered white).
Proof. rewrite final_domains_Permutation. apply NoDup_elements. Qed.

Lemma Sorted_final_domains (filtered white : gset string) :
  Sorted String.le (final_domains filtered white).
Proof. apply (Sorted_merge_sort String.le). Qed.

(** A duplicate-free list sorted by [≤] is sorted by [<]. *)
Lemma StronglySorted_strict (l : list string) :
  StronglySorted String.le l → NoDup l →
  StronglySorted (λ a b, String.le a b ∧ a ≠ b) l.
Proof.
  induction 1 as [|x l Hl IH Hx]; intros Hnd; [constructor|].
  apply NoDup_cons in Hnd as [Hnotin Hnd]. constructor; [by apply IH|].
  rewrite Forall_forall in Hx |- *. intros y Hy. split; [by apply Hx|].
  intros ->. done.
Qed.

(** ** Characters of a well-formed domain *)

Lemma all_chars_impl (p q : ascii → bool) s :
  (∀ c, p c = true → q c = true) → all_chars p s = true → all_chars q s = true.
Proof.
  intros Hpq. induction s as [|c s IH]; [done|]. simpl.
  rewrite !andb_true_iff. intros [Hc Hs]. auto.
Qed.

Lemma label_ok_chars label : label_ok label = true → all_chars label_char label = true.
Proof.
  destruct label as [|c s]; [done|]. unfold label_ok.
  rewrite !andb_true_iff. tauto.
Qed.

Lemma labels_chars s :
  forallb (all_chars label_char) (Py.split "." s) = true →
  all_chars domain_char s = true.
Proof.
  induction s as [|c s IH]; [done|]. simpl.
  pose proof (split_nonempty "." s) as Hne. unfold domain_char at 1.
  destruct (Ascii.eqb c ".") eqn:Hc.
  - simpl. rewrite orb_true_r. auto.
  - destruct (Py.split "." s) as [|p ps]; [done|]. simpl in *.
    rewrite !andb_true_iff. intros [[Hlc Hp] Hps]. rewrite Hlc. simpl.
    split; [done|]. apply IH. by rewrite Hp.
Qed.

Lemma domain_grammar_chars d :
  domain_grammar d = true → d ≠ "" ∧ all_chars domain_char d = true.
Proof.
  unfold domain_grammar. intros Hd. split; [by intros ->|].
  apply labels_chars. rewrite forallb_forall in Hd |- *.
  intros label Hl. by apply label_ok_chars, Hd.
Qed.

(** What a character of a domain cannot be. *)
Lemma domain_char_plain c :
  domain_char c = true →
  Py.isspace c = false ∧ Ascii.eqb c "#" = false ∧ Ascii.eqb c "!" = false ∧
  Ascii.eqb c "/" = false ∧ Ascii.eqb c "^" = false ∧ Ascii.eqb c "013" = false.
Proof.
  destruct c as [[] [] [] [] [] [] [] []]; vm_compute; intros; try discriminate;
    repeat split.
Qed.

(** ** String operations that leave a domain alone *)

Lemma lstrip_id s :
  all_chars (λ c, negb (Py.isspace c)) s = true → Py.lstrip s = s.
Proof.
  destruct s as [|c s]; [done|]. simpl.
  rewrite andb_true_iff, negb_true_iff. by intros [-> _].
Qed.

Lemma rstrip_id s :
  all_chars (λ c, negb (Py.isspace c)) s = true → Py.rstrip s = s.
Proof.
  induction s as [|c s IH]; [done|]. simpl.
  rewrite andb_true_iff, negb_true_iff. intros [Hc Hs].
  rewrite (IH Hs), Hc. by destruct s.
Qed.

Lemma split_id sep s :
  all_chars (λ c, negb (Ascii.eqb c sep)) s = true → Py.split sep s = [s].
Proof.
  induction s as [|c s IH]; [done|]. simpl.
  rewrite andb_true_iff, negb_true_iff. intros [-> Hs]. by rewrite (IH Hs).
Qed.

Lemma remove_all_id ch s :
  all_chars (λ c, negb (Ascii.eqb c ch)) s = true → Py.remove_all ch s = s.
Proof.
  induction s as [|c s IH]; [done|]. simpl.
  rewrite andb_true_iff, negb_true_iff. intros [-> Hs]. by rewrite (IH Hs).
Qed.

(** The chain [strip().split("#")[0].split("^")[0].replace("\r", "")] is
    the identity on a string made of domain characters. *)
Lemma cleanup_id s :
  all_chars domain_char s = true →
  Py.remove_all "013"
    (Py.first (Py.split "^" (Py.first (Py.split "#" (Py.strip s))))) = s.
Proof.
  intros Hs. unfold Py.strip.
  rewrite lstrip_id, rstrip_id;
    [|by eapply all_chars_impl; [|exact Hs]; intros c Hc;
      apply domain_char_plain in Hc as (-> & _) ..].
  rewrite (split_id "#"); [|by eapply all_chars_impl; [|exact Hs]; intros c Hc;
      apply domain_char_plain in Hc as (_ & -> & _)].
  cbn [Py.first head default]. simpl.
  rewrite (split_id "^"); [|by eapply all_chars_impl; [|exact Hs]; intros c Hc;
      apply domain_char_plain in Hc as (_ & _ & _ & _ & -> & _)].
  simpl. apply remove_all_id.
  eapply all_chars_impl; [|exact Hs]. intros c Hc.
  by apply domain_char_plain in Hc as (_ & _ & _ & _ & _ & ->).
Qed.

(** ** The monad of [run] *)

Section MonadLemmas.

Context {W : Type} `{!Remote W}.

Lemma bind_returned {A B} (m : M W A) (f : A → M W B) w a w1 t1 o w2 t2 :
  m w = (Returned a, w1, t1) →
  f a w1 = (o, w2, t2) →
  (m ≫= f) w = (o, w2, t1 ++ t2).
Proof. intros Hm Hf. unfold mbind, M_bind. by rewrite Hm, Hf. Qed.

Lemma bind_raised {A B} (m : M W A) (f : A → M W B) w msg w1 t1 :
  m w = (Raised msg, w1, t1) →
  (m ≫= f) w = (Raised msg, w1, t1).
Proof. intros Hm. unfold mbind, M_bind. by rewrite Hm. Qed.

Lemma await_handle (c : call) w r w' :
  handle c w = (r, w') → await c w = (Returned r, w', [Called c]).
Proof. intros Hc. unfold await. by rewrite Hc. Qed.

Lemma calls_app t1 t2 : calls (t1 ++ t2) = calls t1 ++ calls t2.
Proof. apply omap_app. Qed.

Lemma calls_logged (l : list (level * string)) :
  calls ((λ p, Logged p.1 p.2) <$> l) = [].
Proof. induction l as [|[??] l IH]; by simpl. Qed.

(** A loop whose body changes nothing outside: it returns its values and
    leaves the events of each round. *)
Lemma for_each_pure {A B} (l : list A) (body : A → M W B)
    (f : A → B) (tr : A → list event) w :
  (∀ x w, body x w = (Returned (f x), w, tr x)) →
  for_each l body w = (Returned (f <$> l), w, concat (tr <$> l)).
Proof.
  intros Hbody. induction l as [|x l IH]; [done|].
  cbn [for_each fmap list_fmap concat].
  erewrite bind_returned; [reflexivity|apply Hbody|].
  erewrite bind_returned; [|apply IH|reflexivity].
  by rewrite app_nil_r.
Qed.

(** A loop whose body always returns: it returns one value per element,
    and its remote calls are those of the rounds, in order. *)
Lemma for_each_returns {A B} (l : list A) (body : A → M W B)
    (cs : A → list call) w :
  (∀ x w, ∃ y w' t, body x w = (Returned y, w', t) ∧ calls t = cs x) →
  ∃ ys w' t,
    for_each l body w = (Returned ys, w', t) ∧
    length ys = length l ∧ calls t = concat (cs <$> l).
Proof.
  intros Hbody. revert w. induction l as [|x l IH]; intros w.
  { by exists [], w, []. }
  destruct (Hbody x w) as (y & w1 & t1 & Hx & Hc1).
  destruct (IH w1) as (ys & w2 & t2 & Hl & Hlen & Hc2).
  exists (y :: ys), w2, (t1 ++ t2 ++ []). split; [|split].
  - cbn [for_each]. erewrite bind_returned; [reflexivity|exact Hx|].
    erewrite bind_returned; [reflexivity|exact Hl|reflexivity].
  - simpl. by rewrite Hlen.
  - rewrite app_nil_r, calls_app, Hc1, Hc2. done.
Qed.

End MonadLemmas.

(** ** The phases of [run] *)

Section RunLemmas.

Context {W : Type} `{!Remote W}.

Lemma for_each_fmap {A B C} (g : A → B) (l : list A) (body : B → M W C) :
  for_each (g <$> l) body = for_each l (body ∘ g).
Proof.
  induction l as [|x l IH]; [done|].
  cbn [fmap list_fmap for_each]. fold (fmap (M:=list) g l). by rewrite IH.
Qed.

Lemma concat_singletons {A B} (c : A → B) (l : list A) :
  concat ((λ x, [c x]) <$> l) = c <$> l.
Proof. induction l as [|x l IH]; [done|]. csimpl. by rewrite IH. Qed.

Lemma calls_concat_logs {A} (tr : A → list event) (l : list A) :
  (∀ x, calls (tr x) = []) → calls (concat (tr <$> l)) = [].
Proof.
  intros Htr. induction l as [|x l IH]; [done|].
  csimpl. by rewrite calls_app, Htr, IH.
Qed.

(** [gather] of one [await] per element. *)
Lemma gather_awaits {A} (c : A → call) (R : Type)
    (task : A → M W R) (l : list A) w :
  (∀ x w, ∃ r w', task x w = (Returned r, w', [Called (c x)])) →
  ∃ rs w' t,
    gather (task <$> l) w = (Returned rs, w', t) ∧
    length rs = length l ∧ calls t = c <$> l.
Proof.
  intros Htask. unfold gather. rewrite for_each_fmap.
  destruct (for_each_returns l (id ∘ task) (λ x, [c x]) w)
    as (rs & w' & t & Hrun & Hlen & Hcalls).
  - intros x w0. destruct (Htask x w0) as (r & w1 & Hx).
    exists r, w1, [Called (c x)]. by split.
  - exists rs, w', t. by rewrite concat_singletons in Hcalls.
Qed.

Lemma await_returns (c : call) w :
  ∃ r w', await c w = (Returned r, w', [Called c]).
Proof.
  destruct (handle c w) as [r w'] eqn:Hc. exists r, w'. by apply await_handle.
Qed.

Lemma download_file_returns url w :
  ∃ text w' t, download_file url w = (Returned text, w', t) ∧
               calls t = [session_get url].
Proof.
  destruct (handle (session_get url) w) as [text w'] eqn:Hc.
  eexists text, w', _. split.
  - unfold download_file.
    erewrite bind_returned; [reflexivity|exact (await_handle _ _ _ _ Hc)|].
    reflexivity.
  - done.
Qed.

(** The downloads always come back, one text per URL, and are the only
    remote calls of that phase. *)
Lemma download_all_returns self w :
  ∃ results w1 t1,
    download_all self w = (Returned results, w1, t1) ∧
    length results = length (adlist_urls self ++ whitelist_urls self) ∧
    calls t1 = session_get <$> (adlist_urls self ++ whitelist_urls self).
Proof.
  unfold download_all, gather. rewrite for_each_fmap.
  destruct (for_each_returns (adlist_urls self ++ whitelist_urls self)
              (id ∘ download_file) (λ url, [session_get url]) w)
    as (rs & w' & t & Hrun & Hlen & Hcalls).
  - intros url w0. apply download_file_returns.
  - exists rs, w', t. by rewrite concat_singletons in Hcalls.
Qed.

Lemma rebuild_lists_returns self domains cf_lists w :
  ∃ chunks new_lists w' t,
    chunk_list domains 1000 = Some chunks ∧
    rebuild_lists self domains cf_lists w = (Returned new_lists, w', t) ∧
    length new_lists = length chunks ∧
    calls t = rebuild_calls self chunks cf_lists.
Proof.
  destruct (chunk_list domains 1000) as [chunks|] eqn:Hchunks;
    [|by rewrite chunk_list_pos in Hchunks].
  exists chunks. unfold rebuild_lists. rewrite Hchunks.
  destruct (handle (delete_gateway_policy (name_prefix self +:+ " Block Ads")) w)
    as [deleted w1] eqn:Hdel.
  destruct (gather_awaits (λ l, delete_list (list_name l) (list_id l)) unit
              (λ l, await (delete_list (list_name l) (list_id l)))
              cf_lists w1) as (acks & w2 & t2 & Hgd & _ & Hcd).
  { intros l w0. apply (await_returns (delete_list _ _)). }
  destruct (gather_awaits
              (λ p : Z * list string,
                 create_list (name_prefix self +:+ " " +:+ Py.str (p.1 + 1)) p.2)
              cf_list
              (λ p : Z * list string,
                 await (create_list (name_prefix self +:+ " " +:+ Py.str (p.1 + 1)) p.2))
              (Py.enumerate chunks) w2) as (new_lists & w3 & t3 & Hgc & Hlen & Hcc).
  { intros p w0. apply (await_returns (create_list _ _)). }
  exists new_lists, w3. eexists. split; [done|]. split; [|split].
  - erewrite bind_returned; [reflexivity|exact (await_handle _ _ _ _ Hdel)|].
    erewrite bind_returned; [reflexivity|reflexivity|].
    erewrite bind_returned; [reflexivity| |].
    { apply (for_each_pure _ _
        (λ l, await (delete_list (list_name l) (list_id l)) : M W unit)
        (λ l, [Logged INFO ("Deleting list " +:+ list_name l +:+ " - ID:"
                            +:+ list_id l +:+ " ")])).
      reflexivity. }
    erewrite bind_returned; [reflexivity|exact Hgd|].
    erewrite bind_returned; [reflexivity| |exact Hgc].
    apply (for_each_pure _ _
      (λ p : Z * list string,
         await (create_list (name_prefix self +:+ " " +:+ Py.str (p.1 + 1)) p.2)
         : M W cf_list)
      (λ p : Z * list string,
         [Logged INFO ("Creating list " +:+ name_prefix self +:+ " "
                       +:+ Py.str (p.1 + 1))])).
    intros [i chunk] w0. reflexivity.
  - rewrite Hlen. unfold Py.enumerate. by rewrite length_imap.
  - rewrite !calls_app. unfold rebuild_calls.
    rewrite !calls_concat_logs by done. rewrite Hcd, Hcc. done.
Qed.

(** With no policy at all, [check_policy] creates one over the lists it
    was given. *)
Lemma check_policy_creates self cf_lists w w1 policy w2 :
  handle (get_firewall_policies (name_prefix self)) w = ([], w1) →
  handle (create_gateway_policy (name_prefix self +:+ " Block Ads")
            (list_id <$> cf_lists)) w1 = (policy, w2) →
  ∃ t, check_policy self cf_lists w = (Returned tt, w2, t) ∧
       calls t = [get_firewall_policies (name_prefix self);
                  create_gateway_policy (name_prefix self +:+ " Block Ads")
                    (list_id <$> cf_lists)].
Proof.
  intros Hget Hcreate. eexists. split.
  - unfold check_policy.
    erewrite bind_returned; [reflexivity|reflexivity|].
    erewrite bind_returned; [reflexivity|exact (await_handle _ _ _ _ Hget)|].
    change (Py.len (@nil cf_policy) =? 0) with true. cbv iota.
    erewrite bind_returned; [reflexivity|reflexivity|].
    erewrite bind_returned; [reflexivity|exact (await_handle _ _ _ _ Hcreate)|].
    reflexivity.
  - done.
Qed.

(** With one policy or more, [check_policy] leaves the store alone. *)
Lemma check_policy_skips self cf_lists w cf_policies w1 :
  handle (get_firewall_policies (name_prefix self)) w = (cf_policies, w1) →
  0 < Py.len cf_policies →
  ∃ t, check_policy self cf_lists w = (Returned tt, w1, t) ∧
       calls t = [get_firewall_policies (name_prefix self)].
Proof.
  intros Hget Hlen. eexists. split.
  - unfold check_policy.
    erewrite bind_returned; [reflexivity|reflexivity|].
    erewrite bind_returned; [reflexivity|exact (await_handle _ _ _ _ Hget)|].
    destruct (Z.eqb_spec (Py.len cf_policies) 0); [lia|]. reflexivity.
  - done.
Qed.

(** With more than one policy, [setup_policy] raises right after the
    fetch. *)
Lemma setup_policy_raises self cf_lists w cf_policies w1 :
  handle (get_firewall_policies (name_prefix self)) w = (cf_policies, w1) →
  1 < Py.len cf_policies →
  ∃ t, setup_policy self cf_lists w
         = (Raised "More than one firewall policy found", w1, t) ∧
       calls t = [get_firewall_policies (name_prefix self)].
Proof.
  intros Hget Hlen. eexists. split.
  - unfold setup_policy.
    erewrite bind_returned; [reflexivity|exact (await_handle _ _ _ _ Hget)|].
    erewrite bind_returned; [reflexivity|reflexivity|].
    apply bind_raised.
    destruct (Z.eqb_spec (Py.len cf_policies) 0); [lia|].
    destruct (Z.eqb_spec (Py.len cf_policies) 1); [lia|]. cbn [negb].
    erewrite bind_returned; [reflexivity|reflexivity|reflexivity].
  - done.
Qed.

End RunLemmas.

(** ** The decision of [run] *)

Section ReconcileLemmas.

Context {W : Type} `{!Remote W}.

Variable replace_pattern_sub : string → string.
Variable idna : string → option string.
Variable domain_pattern_match : string → bool.
Variable ip_pattern_match : string → bool.

Local Abbreviation run' :=
  (run replace_pattern_sub idna domain_pattern_match ip_pattern_match).
Local Abbreviation computes' :=
  (computes replace_pattern_sub idna domain_pattern_match ip_pattern_match).

(** The final list comes from the downloaded texts alone; the downloads
    are the only remote calls on the way. *)
Lemma compute_domains_returns self w :
  ∃ results w1 t1,
    compute_domains replace_pattern_sub idna domain_pattern_match
      ip_pattern_match self w
    = (Returned
         (domain_list replace_pattern_sub idna domain_pattern_match
            ip_pattern_match
            (Py.join "" (take (length (adlist_urls self)) results))
            (Py.join "" (drop (length (adlist_urls self)) results))),
       w1, t1) ∧
    length results = length (adlist_urls self ++ whitelist_urls self) ∧
    calls t1 = session_get <$> (adlist_urls self ++ whitelist_urls self).
Proof.
  destruct (download_all_returns self w) as (results & w1 & t0 & Hdl & Hlen & Hc).
  exists results, w1. eexists. split; [|split; [exact Hlen|]].
  - unfold compute_domains. erewrite bind_returned; [reflexivity|exact Hdl|].
    reflexivity.
  - rewrite calls_app, Hc. apply app_nil_r.
Qed.

(** [run] is that first phase followed by [reconcile] on the list it
    computed. *)
Lemma run_computes self w domains w1 o w2 t2 :
  computes' self w domains w1 →
  reconcile self domains w1 = (o, w2, t2) →
  ∃ t1, run' self w = (o, w2, t1 ++ t2) ∧
        calls t1 = session_get <$> (adlist_urls self ++ whitelist_urls self).
Proof.
  intros (t1 & Hcomp) Hrec. exists t1. split.
  - unfold run. by erewrite bind_returned.
  - destruct (compute_domains_returns self w) as (rs & w1' & t1' & Hcomp' & _ & Hc).
    rewrite Hcomp in Hcomp'. by simplify_eq.
Qed.

Lemma reconcile_aborts self domains w :
  Py.len domains = 0 ∨ 300000 < Py.len domains →
  ∃ msg, reconcile self domains w = (Returned tt, w, [Logged WARNING msg]).
Proof.
  intros Hsize. unfold reconcile.
  destruct (Z.eqb_spec (Py.len domains) 0); [by eexists|].
  destruct (Z.ltb_spec 300000 (Py.len domains)); [by eexists|lia].
Qed.

Lemma reconcile_in_sync self domains w cf_lists w1 o w2 t :
  0 < Py.len domains ≤ 300000 →
  handle (get_lists (name_prefix self)) w = (cf_lists, w1) →
  Py.sum (list_count <$> cf_lists) = Py.len domains →
  check_policy self cf_lists w1 = (o, w2, t) →
  ∃ t0, reconcile self domains w = (o, w2, t0 ++ t) ∧
        calls t0 = [get_lists (name_prefix self)].
Proof.
  intros Hsize Hget Hsum Hcheck.
  exists [Called (get_lists (name_prefix self));
          Logged INFO ("Number of lists in Cloudflare: "
                       +:+ Py.str (Py.len cf_lists))].
  split; [|done]. unfold reconcile.
  destruct (Z.eqb_spec (Py.len domains) 0); [lia|].
  destruct (Z.ltb_spec 300000 (Py.len domains)); [lia|].
  unfold mbind, M_bind, await, logging. rewrite Hget.
  rewrite Hsum, Z.eqb_refl, Hcheck. done.
Qed.

Lemma reconcile_rebuilds self domains w cf_lists w1 new_lists w2 t2 o w3 t3 :
  0 < Py.len domains ≤ 300000 →
  handle (get_lists (name_prefix self)) w = (cf_lists, w1) →
  Py.sum (list_count <$> cf_lists) ≠ Py.len domains →
  rebuild_lists self domains cf_lists w1 = (Returned new_lists, w2, t2) →
  setup_policy self new_lists w2 = (o, w3, t3) →
  ∃ t0, reconcile self domains w = (o, w3, t0 ++ t2 ++ t3) ∧
        calls t0 = [get_lists (name_prefix self)].
Proof.
  intros Hsize Hget Hsum Hrebuild Hsetup.
  exists [Called (get_lists (name_prefix self));
          Logged INFO ("Number of lists in Cloudflare: "
                       +:+ Py.str (Py.len cf_lists))].
  split; [|done]. unfold reconcile.
  destruct (Z.eqb_spec (Py.len domains) 0); [lia|].
  destruct (Z.ltb_spec 300000 (Py.len domains)); [lia|].
  unfold mbind, M_bind, await, logging. rewrite Hget.
  destruct (Z.eqb_spec (Py.len domains) (Py.sum (list_count <$> cf_lists)));
    [congruence|].
  rewrite Hrebuild, Hsetup. done.
Qed.

End ReconcileLemmas.

(** ** The model at work *)

Example chunk_list_7_3 :
  chunk_list [1; 2; 3; 4; 5; 6; 7] 3 = Some [[1; 2; 3]; [4; 5; 6]; [7]].
Proof. reflexivity. Qed.

Example chunk_list_6_3 : chunk_list [1; 2; 3; 4; 5; 6] 3 = Some [[1; 2; 3]; [4; 5; 6]].
Proof. reflexivity. Qed.

Example chunk_list_zero : chunk_list [1; 2; 3] 0 = None.
Proof. reflexivity. Qed.

Example chunk_list_negative : chunk_list [1; 2; 3] (-2) = Some [].
Proof. reflexivity. Qed.

Example splitlines_ex :
  Py.splitlines (String "a" (String "013" (String "010" (String "010" (String "b" (String "010" "")))))) = ["a"; ""; "b"].
Proof. reflexivity. Qed.

Example strip_ex : Py.strip "  ab c  " = "ab c".
Proof. reflexivity. Qed.

Example lower_ex : Py.lower "Ads.Example.COM" = "ads.example.com".
Proof. reflexivity. Qed.

Example sorted_ex : Py.sorted ["b.com"; "a.org"; "a.com"; "B"] = ["B"; "a.com"; "a.org"; "b.com"].
Proof. reflexivity. Qed.


Example convert_ex1 : Patterns.convert_domains "0.0.0.0 malware.test" = Some "malware.test".
Proof. reflexivity. Qed.
Example convert_ex2 : Patterns.convert_domains "192.168.1.1" = None.
Proof. reflexivity. Qed.
Example convert_ex3 : Patterns.convert_domains "||Ads.Example.com^$third-party" = Some "ads.example.com".
Proof. reflexivity. Qed.
Example convert_ex4 : Patterns.convert_domains "# comment" = None.
Proof. reflexivity. Qed.

Example scenario1 :
  Patterns.domain_list
    ("ads.example.com" +:+ lf +:+ "example.com" +:+ lf +:+ "tracker.io" +:+ lf)
    ("tracker.io" +:+ lf) = ["example.com"].
Proof. vm_compute. reflexivity. Qed.

Example str_ex : Py.str 1204 = "1204".
Proof. vm_compute. reflexivity. Qed.


Example scenario2 :
  Patterns.domain_list ("0.0.0.0 malware.test" +:+ lf +:+ "192.168.1.1" +:+ lf) ""
  = ["malware.test"].
Proof. vm_compute. reflexivity. Qed.

(** ** RedundancyReducer *)

(** C1, as stated, fails: a single-label entry is kept without being looked
    up as a parent, so [a.com] survives next to [com]. *)
Lemma redundancy_free_fails_on_single_label_parent :
  ¬ redundancy_free (list_to_set ["com"; "a.com"]).
Proof.
  intros [Hout _]. apply (Hout "a.com" "com").
  - by apply (bool_decide_unpack _); vm_compute.
  - by apply (bool_decide_unpack _); vm_compute.
  - by exists "a".
Qed.

(** C1, amended: the output of [remove_subdomains] is a subset of the input,
    and no domain of the output is a strict sub-domain of a multi-label
    domain of the input or of the output. Single-label domains of the input
    are always kept and are not looked up as parents: a domain of the input
    whose strict parents in the input are all single-label is kept. *)
Theorem remove_subdomains_no_multi_label_parent (domains : gset string) :
  let output := remove_subdomains domains in
  (∀ a, a ∈ output → a ∈ domains) ∧
  (∀ a b, a ∈ output → b ∈ domains ∨ b ∈ output →
          ¬ single_label b → ¬ strict_subdomain a b) ∧
  (∀ d, d ∈ domains → single_label d → d ∈ output) ∧
  (∀ d, d ∈ domains →
        (∀ b, b ∈ domains → strict_subdomain d b → single_label b) →
        d ∈ output).
Proof.
  cbv zeta. split; [|split; [|split]].
  - by intros a [Ha _]%elem_of_remove_subdomains.
  - intros a b [Ha Hno]%elem_of_remove_subdomains Hb Hmulti.
    apply Hno; [|done]. destruct Hb as [Hb|Hb]; [done|].
    by apply elem_of_remove_subdomains in Hb as [Hb _].
  - intros d Hd Hsingle. apply elem_of_remove_subdomains. split; [done|].
    intros b _ _. by apply single_label_no_parent.
  - intros d Hd Hparents. apply elem_of_remove_subdomains. split; [done|].
    intros b Hb Hmulti Hstrict. apply Hmulti. by apply Hparents.
Qed.

Lemma remove_subdomains_no_multi_label_parent_witness :
  let domains : gset string :=
    list_to_set ["com"; "a.com"; "ads.example.com"; "example.com"] in
  "com" ∈ remove_subdomains domains ∧
  "a.com" ∈ remove_subdomains domains ∧
  "example.com" ∈ domains ∧
  ¬ strict_subdomain "example.com" "a.com".
Proof.
  cbv zeta.
  destruct (remove_subdomains_no_multi_label_parent
              (list_to_set ["com"; "a.com"; "ads.example.com"; "example.com"]))
    as (Hsubset & Hno & Hsingle & Hkept).
  assert ("example.com" ∈
            remove_subdomains
              (list_to_set ["com"; "a.com"; "ads.example.com"; "example.com"]))
    as Hex by (by apply (bool_decide_unpack _); vm_compute).
  split; [|split; [|split]].
  - apply Hsingle; by apply (bool_decide_unpack _); vm_compute.
  - apply Hkept; [by apply (bool_decide_unpack _); vm_compute|].
    intros b Hb Hstrict.
    apply elem_of_list_to_set in Hb.
    rewrite !elem_of_cons, elem_of_nil in Hb.
    destruct Hb as [->|[->|[->|[->|[]]]]];
      [by apply (bool_decide_unpack _); vm_compute|..];
      apply strict_subdomain_shorter in Hstrict; simpl in Hstrict; lia.
  - by apply Hsubset.
  - apply (Hno "example.com" "a.com" Hex).
    + left. by apply (bool_decide_unpack _); vm_compute.
    + by apply (bool_decide_unpack _); vm_compute.
Defined.

(** C3: every domain of the input of [remove_subdomains] is in the output or
    has a strict parent in the output. *)
Theorem remove_subdomains_coverage (domains : gset string) d :
  d ∈ domains →
  d ∈ remove_subdomains domains ∨
  ∃ a, strict_subdomain d a ∧ a ∈ remove_subdomains domains.
Proof.
  remember (String.length d) as n eqn:Hn. revert d Hn.
  induction n as [n IH] using lt_wf_ind. intros d -> Hd.
  destruct (decide (d ∈ remove_subdomains domains)) as [Hin|Hout]; [by left|].
  right. destruct (dropped_has_parent domains d Hd Hout) as (b & Hb & _ & Hdb).
  destruct (IH (String.length b) (strict_subdomain_shorter _ _ Hdb) b eq_refl Hb)
    as [Hkept|(a & Hba & Ha)].
  - by exists b.
  - exists a. split; [|done]. by apply strict_subdomain_trans with b.
Qed.

Lemma remove_subdomains_coverage_witness :
  let domains : gset string :=
    list_to_set ["a.ads.example.com"; "ads.example.com"; "example.com"] in
  "a.ads.example.com" ∈ remove_subdomains domains ∨
  ∃ a, strict_subdomain "a.ads.example.com" a ∧ a ∈ remove_subdomains domains.
Proof.
  apply remove_subdomains_coverage.
  by apply (bool_decide_unpack _); vm_compute.
Defined.

(** ** Chunker *)

(** C7: for a positive chunk size [n], [chunk_list] yields the consecutive
    slices of the input: their concatenation is the input, the chunk at
    position [k] is the slice of [n] entries that starts at [k * n], no chunk
    is longer than [n], and every chunk but the last has exactly [n]
    entries. *)
Theorem chunk_list_covers {A} (l : list A) (n : Z) :
  0 < n →
  ∃ chunks,
    chunk_list l n = Some chunks ∧
    concat chunks = l ∧
    ∀ (k : nat) chunk, chunks !! k = Some chunk →
      chunk = take (Z.to_nat n) (drop (k * Z.to_nat n) l) ∧
      (0 < length chunk ≤ Z.to_nat n)%nat ∧
      (S k < length chunks → length chunk = Z.to_nat n)%nat.
Proof.
  intros Hn. eexists. split; [by apply chunk_list_pos|].
  assert (0 ≤ Py.len l) as Hlen by (unfold Py.len; lia).
  split.
  - apply concat_chunks. pose proof (num_chunks_enough (Py.len l) n Hn Hlen).
    unfold Py.len in *. nia.
  - intros k chunk Hk. rewrite list_lookup_fmap in Hk.
    destruct (seq 0 _ !! k) as [k'|] eqn:Hseq; [|done].
    apply lookup_seq in Hseq as [-> Hlt]. simpl in Hk. simplify_eq.
    split; [done|].
    pose proof (num_chunks_bounds (Py.len l) n k Hn Hlen Hlt) as Hstart.
    rewrite length_take, length_drop. unfold Py.len in *. split; [nia|].
    rewrite length_fmap, length_seq. intros Hnext.
    pose proof (num_chunks_bounds (Z.of_nat (length l)) n (S k) Hn Hlen Hnext).
    nia.
Qed.

Lemma chunk_list_covers_witness :
  ∃ chunks,
    chunk_list ["a.com"; "b.com"; "c.com"; "d.com"; "e.com"] 2 = Some chunks ∧
    concat chunks = ["a.com"; "b.com"; "c.com"; "d.com"; "e.com"] ∧
    ∀ (k : nat) chunk, chunks !! k = Some chunk →
      chunk = take (Z.to_nat 2)
                (drop (k * Z.to_nat 2) ["a.com"; "b.com"; "c.com"; "d.com"; "e.com"]) ∧
      (0 < length chunk ≤ Z.to_nat 2)%nat ∧
      (S k < length chunks → length chunk = Z.to_nat 2)%nat.
Proof. apply chunk_list_covers. lia. Defined.

(** ** SetCombiner *)

(** C5: the final list is the ascending sort of the reduced block set minus
    the allow set: it has no duplicates, it is strictly ascending in the
    lexicographic order, it holds exactly the reduced block domains that
    are not allowed, and it is the only sorted duplicate-free list that
    does. *)
Theorem final_domains_sorted_difference (filtered_domains white_domains : gset string) :
  let final := final_domains filtered_domains white_domains in
  NoDup final ∧
  StronglySorted (λ a b, String.le a b ∧ a ≠ b) final ∧
  (∀ d, d ∈ final ↔ d ∈ filtered_domains ∧ d ∉ white_domains) ∧
  (∀ l, Sorted String.le l → NoDup l →
        (∀ d, d ∈ l ↔ d ∈ filtered_domains ∧ d ∉ white_domains) →
        final = l).
Proof.
  cbv zeta. split; [apply NoDup_final_domains|]. split.
  { apply StronglySorted_strict; [|apply NoDup_final_domains].
    apply Sorted_StronglySorted; [apply _|apply Sorted_final_domains]. }
  split; [apply elem_of_final_domains|].
  intros l Hsorted Hnd Hl. apply (Sorted_unique String.le).
  - apply Sorted_final_domains.
  - done.
  - apply NoDup_Permutation; [apply NoDup_final_domains|done|].
    intros d. by rewrite elem_of_final_domains, Hl.
Qed.

Lemma final_domains_sorted_difference_witness :
  final_domains (list_to_set ["tracker.io"; "example.com"; "b.example.org"])
                (list_to_set ["tracker.io"; "other.net"])
  = ["b.example.org"; "example.com"].
Proof.
  apply final_domains_sorted_difference.
  - repeat constructor.
  - apply (bool_decide_unpack _). by vm_compute.
  - intros d. rewrite !elem_of_cons, elem_of_nil.
    rewrite !elem_of_list_to_set, !elem_of_cons, !elem_of_nil.
    split; [intros [->|[->|[]]]|]; [split; [tauto|] ..|].
    + intros [?|[?|[]]]; discriminate.
    + intros [?|[?|[]]]; discriminate.
    + intros [[->|[->|[->|[]]]] Hno]; [destruct Hno|..]; tauto.
Defined.



(** ** Normalizer *)

Section NormalizerProperties.

Variable replace_pattern_sub : string → string.
Variable idna : string → option string.
Variable domain_pattern_match : string → bool.
Variable ip_pattern_match : string → bool.

(** C8: an empty line, and a line that begins with [#], [!] or [/], give
    no domain. *)
Theorem convert_domains_rejects_comments (line : string) :
  line = "" ∨
  (∃ c rest, line = String c rest ∧ (c = "#" ∨ c = "!" ∨ c = "/")%char) →
  convert_domains replace_pattern_sub idna domain_pattern_match ip_pattern_match line
  = None.
Proof.
  intros [-> | (c & rest & -> & [-> | [-> | ->]])]; reflexivity.
Qed.

(** C9: a canonical domain is returned unchanged. Canonical means:
    lower-case, left unchanged by the IDNA encoding, well formed for the
    grammar of the specification and accepted by [domain_pattern], not
    matched by [ip_pattern], and free of anything [replace_pattern]
    strips. *)
Theorem convert_domains_canonical (d : string) :
  Py.lower d = d →
  idna d = Some d →
  domain_grammar d = true →
  domain_pattern_match d = true →
  ip_pattern_match d = false →
  replace_pattern_sub d = d →
  convert_domains replace_pattern_sub idna domain_pattern_match ip_pattern_match d
  = Some d.
Proof.
  intros Hlower Hidna [Hne Hchars]%domain_grammar_chars Hdom Hip Hrep.
  unfold convert_domains.
  destruct d as [|c d']; [done|].
  assert (domain_char c = true) as Hc.
  { simpl in Hchars. by apply andb_true_iff in Hchars as [-> _]. }
  apply domain_char_plain in Hc as (_ & Hc1 & Hc2 & Hc3 & _).
  cbn [Py.startswith]. rewrite Hc1, Hc2, Hc3.
  rewrite bool_decide_eq_false_2 by done. cbn [andb orb].
  rewrite Hlower, cleanup_id by done.
  cbv zeta. rewrite Hrep, Hidna, Hdom, Hip. done.
Qed.

End NormalizerProperties.

Lemma convert_domains_rejects_comments_witness :
  Patterns.convert_domains "# a list of trackers" = None.
Proof.
  apply convert_domains_rejects_comments. right.
  exists "#"%char, " a list of trackers". split; [reflexivity|by left].
Defined.

Lemma convert_domains_canonical_witness :
  Patterns.convert_domains "ads.example.com" = Some "ads.example.com".
Proof. apply convert_domains_canonical; reflexivity. Defined.

(** ** Reconciler *)

Section RunProperties.

Context {W : Type} `{!Remote W}.

Variable replace_pattern_sub : string → string.
Variable idna : string → option string.
Variable domain_pattern_match : string → bool.
Variable ip_pattern_match : string → bool.

(** C4: when the final list is empty or has more than 300,000 entries, the
    run returns after a warning; its only remote calls are the downloads
    of the sources, so nothing of the store is created, updated or
    deleted, and the world is left as the downloads left it. *)
Theorem run_size_guards_leave_store_alone self w domains w1 :
  computes replace_pattern_sub idna domain_pattern_match ip_pattern_match
    self w domains w1 →
  Py.len domains = 0 ∨ 300000 < Py.len domains →
  ∃ t msg,
    run replace_pattern_sub idna domain_pattern_match ip_pattern_match self w
      = (Returned tt, w1, t) ∧
    last t = Some (Logged WARNING msg) ∧
    calls t = session_get <$> (adlist_urls self ++ whitelist_urls self) ∧
    Forall (λ c, mutates c = false) (calls t).
Proof.
  intros Hcomp Hsize.
  destruct (reconcile_aborts self domains w1 Hsize) as (msg & Hrec).
  destruct (run_computes _ _ _ _ _ _ _ _ _ _ _ Hcomp Hrec) as (t1 & Hrun & Hcalls).
  exists (t1 ++ [Logged WARNING msg]), msg.
  split; [done|]. split; [apply last_snoc|].
  assert (calls (t1 ++ [Logged WARNING msg])
          = session_get <$> (adlist_urls self ++ whitelist_urls self)) as Hc.
  { by rewrite calls_app, Hcalls, app_nil_r. }
  split; [done|]. rewrite Hc. apply Forall_fmap, Forall_true. done.
Qed.

(** C6, amended: when the final list is not empty and has at most 300,000
    entries, the item counts of the remote lists sum up to its size and no
    policy exists for the namespace, the run creates one gateway policy over
    the identifiers of the existing lists and returns; its remote calls are
    the downloads, the two reads and that creation, so no list is deleted
    or created. *)
Theorem run_creates_policy_only self w domains w1 cf_lists :
  computes replace_pattern_sub idna domain_pattern_match ip_pattern_match
    self w domains w1 →
  0 < Py.len domains ≤ 300000 →
  in_sync_without_policy self w1 cf_lists domains →
  creates_policy_only replace_pattern_sub idna domain_pattern_match
    ip_pattern_match self w cf_lists.
Proof.
  intros Hcomp Hsize (w2 & w3 & Hlists & Hsum & Hpol).
  destruct (handle (create_gateway_policy (name_prefix self +:+ " Block Ads")
                      (list_id <$> cf_lists)) w3) as [policy w4] eqn:Hcreate.
  destruct (check_policy_creates self cf_lists w2 w3 policy w4 Hpol Hcreate)
    as (t & Hcheck & Hc).
  destruct (reconcile_in_sync self domains w1 cf_lists w2 _ _ _
              Hsize Hlists Hsum Hcheck) as (t0 & Hrec & Hc0).
  destruct (run_computes _ _ _ _ _ _ _ _ _ _ _ Hcomp Hrec) as (t1 & Hrun & Hc1).
  exists w4, (t1 ++ t0 ++ t). split; [done|].
  by rewrite !calls_app, Hc1, Hc0, Hc.
Qed.

(** The calls of a rebuild delete the policy, delete lists and create
    lists; none of them creates or updates a policy. *)
Lemma rebuild_calls_leave_policy_unset self chunks cf_lists c :
  c ∈ rebuild_calls self chunks cf_lists →
  (∀ name ids, c ≠ create_gateway_policy name ids) ∧
  (∀ name id ids, c ≠ update_gateway_policy name id ids).
Proof.
  unfold rebuild_calls. rewrite elem_of_cons, elem_of_app, !list_elem_of_fmap.
  intros [->|[(l & -> & _)|(p & -> & _)]]; by split.
Qed.

(** C2, amended: let the final list be within the size guards and let the
    store hold more than one policy for the namespace when the run fetches
    the policies. When the remote item counts sum up to the size of the final
    list, the run exits without error and without changing the store: its
    remote calls are the downloads and the two reads. When they do not (the
    rebuild path), the run raises the multiple-policies error: it creates or
    updates no policy, but the deletion of the policy, the deletion of every
    old list and the creation of the new lists have been issued before the
    fetch that reveals the policies, and nothing is called after it. *)
Theorem run_on_multiple_policies self w domains w1 cf_lists w2 :
  computes replace_pattern_sub idna domain_pattern_match ip_pattern_match
    self w domains w1 →
  0 < Py.len domains ≤ 300000 →
  handle (get_lists (name_prefix self)) w1 = (cf_lists, w2) →
  (Py.sum (list_count <$> cf_lists) = Py.len domains →
   holds_multiple_policies self w2 →
   ∃ w' t,
     run replace_pattern_sub idna domain_pattern_match ip_pattern_match self w
       = (Returned tt, w', t) ∧
     calls t =
       (session_get <$> (adlist_urls self ++ whitelist_urls self))
       ++ [get_lists (name_prefix self);
           get_firewall_policies (name_prefix self)] ∧
     Forall (λ c, mutates c = false) (calls t)) ∧
  (Py.sum (list_count <$> cf_lists) ≠ Py.len domains →
   ∀ new_lists w3 t3,
     rebuild_lists self domains cf_lists w2 = (Returned new_lists, w3, t3) →
     holds_multiple_policies self w3 →
     ∃ chunks w' t,
       chunk_list domains 1000 = Some chunks ∧
       run replace_pattern_sub idna domain_pattern_match ip_pattern_match self w
         = (Raised "More than one firewall policy found", w', t) ∧
       calls t =
         (session_get <$> (adlist_urls self ++ whitelist_urls self))
         ++ [get_lists (name_prefix self)]
         ++ rebuild_calls self chunks cf_lists
         ++ [get_firewall_policies (name_prefix self)] ∧
       delete_gateway_policy (name_prefix self +:+ " Block Ads") ∈ calls t ∧
       (∀ c, c ∈ calls t →
             (∀ name ids, c ≠ create_gateway_policy name ids) ∧
             (∀ name id ids, c ≠ update_gateway_policy name id ids))).
Proof.
  intros Hcomp Hsize Hlists. split.
  - intros Hsum (cf_policies & w3 & Hpol & Hmany).
    destruct (check_policy_skips self cf_lists w2 cf_policies w3 Hpol)
      as (t & Hcheck & Hc); [lia|].
    destruct (reconcile_in_sync self domains w1 cf_lists w2 _ _ _
                Hsize Hlists Hsum Hcheck) as (t0 & Hrec & Hc0).
    destruct (run_computes _ _ _ _ _ _ _ _ _ _ _ Hcomp Hrec) as (t1 & Hrun & Hc1).
    exists w3, (t1 ++ t0 ++ t). split; [done|].
    assert (calls (t1 ++ t0 ++ t) =
            (session_get <$> (adlist_urls self ++ whitelist_urls self))
            ++ [get_lists (name_prefix self);
                get_firewall_policies (name_prefix self)]) as Hcalls.
    { by rewrite !calls_app, Hc1, Hc0, Hc. }
    split; [done|]. rewrite Hcalls. apply Forall_app. split.
    + apply Forall_fmap, Forall_true. done.
    + repeat constructor.
  - intros Hsum new_lists w3 t3 Hrebuild (cf_policies & w4 & Hpol & Hmany).
    destruct (rebuild_lists_returns self domains cf_lists w2)
      as (chunks & new_lists' & w3' & t3' & Hchunks & Hrebuild' & _ & Hc3).
    rewrite Hrebuild in Hrebuild'. simplify_eq.
    destruct (setup_policy_raises self new_lists' w3' cf_policies w4 Hpol Hmany)
      as (t4 & Hsetup & Hc4).
    destruct (reconcile_rebuilds self domains w1 cf_lists w2 new_lists' w3' t3'
                _ _ _ Hsize Hlists Hsum Hrebuild Hsetup) as (t0 & Hrec & Hc0).
    destruct (run_computes _ _ _ _ _ _ _ _ _ _ _ Hcomp Hrec) as (t1 & Hrun & Hc1).
    exists chunks, w4, (t1 ++ t0 ++ t3' ++ t4).
    assert (calls (t1 ++ t0 ++ t3' ++ t4) =
            (session_get <$> (adlist_urls self ++ whitelist_urls self))
            ++ [get_lists (name_prefix self)]
            ++ rebuild_calls self chunks cf_lists
            ++ [get_firewall_policies (name_prefix self)]) as Hcalls.
    { by rewrite !calls_app, Hc1, Hc0, Hc3, Hc4. }
    split; [done|]. split; [done|]. split; [done|]. rewrite Hcalls. split.
    + rewrite !elem_of_app. right. right. left. apply elem_of_cons. by left.
    + intros c. rewrite !elem_of_app, list_elem_of_fmap, !list_elem_of_singleton.
      intros [(url & -> & _)|[->|[Hc| ->]]]; [by split|by split| |by split].
      by apply rebuild_calls_leave_policy_unset in Hc.
Qed.

End RunProperties.

(** ** The Reconciler on concrete stores *)

Lemma demo_computes_empty :
  computes Patterns.replace_pattern_sub Patterns.idna Patterns.domain_pattern_match
    Patterns.ip_pattern_match Demo.app Demo.fresh_empty [] Demo.fresh_empty.
Proof. eexists. vm_compute. reflexivity. Defined.

Lemma demo_computes_two (s : Store.t) :
  Store.files s = Demo.feed →
  computes Patterns.replace_pattern_sub Patterns.idna Patterns.domain_pattern_match
    Patterns.ip_pattern_match Demo.app s ["example.com"; "malware.test"] s.
Proof.
  destruct s as [files lists policies next_id]. simpl. intros ->.
  eexists. vm_compute. reflexivity.
Defined.

Lemma run_size_guards_leave_store_alone_witness :
  ∃ t msg,
    Patterns.run Demo.app Demo.fresh_empty = (Returned tt, Demo.fresh_empty, t) ∧
    last t = Some (Logged WARNING msg) ∧
    calls t = session_get <$> (adlist_urls Demo.app ++ whitelist_urls Demo.app) ∧
    Forall (λ c, mutates c = false) (calls t).
Proof.
  apply (run_size_guards_leave_store_alone _ _ _ _ Demo.app Demo.fresh_empty []).
  - exact demo_computes_empty.
  - left. reflexivity.
Defined.

(** C6, as stated, fails: with an empty final list and a fresh namespace the
    counts match (0 = 0) and no policy exists, yet the run stops at the
    empty-list guard and creates no policy. *)
Lemma run_creates_no_policy_on_empty_feed :
  ¬ (computes Patterns.replace_pattern_sub Patterns.idna
       Patterns.domain_pattern_match Patterns.ip_pattern_match
       Demo.app Demo.fresh_empty [] Demo.fresh_empty →
     in_sync_without_policy Demo.app Demo.fresh_empty [] [] →
     creates_policy_only Patterns.replace_pattern_sub Patterns.idna
       Patterns.domain_pattern_match Patterns.ip_pattern_match
       Demo.app Demo.fresh_empty []).
Proof.
  intros Hclaim. destruct Hclaim as (w' & t & Hrun & Hcalls).
  - exact demo_computes_empty.
  - exists Demo.fresh_empty, Demo.fresh_empty. repeat split.
  - vm_compute in Hrun. simplify_eq.
Qed.

Lemma run_creates_policy_only_witness :
  creates_policy_only Patterns.replace_pattern_sub Patterns.idna
    Patterns.domain_pattern_match Patterns.ip_pattern_match
    Demo.app Demo.lists_without_policy [Demo.old_list].
Proof.
  apply (run_creates_policy_only _ _ _ _ Demo.app Demo.lists_without_policy
           ["example.com"; "malware.test"] Demo.lists_without_policy).
  - by apply demo_computes_two.
  - vm_compute. split; [reflexivity|discriminate].
  - exists Demo.lists_without_policy, Demo.lists_without_policy. repeat split.
Defined.

(** C2, as stated, fails on both paths. When the sizes match, two policies
    make the run exit without any error; when they differ, the policy
    deletion and the list creation are issued before the error is raised. *)
Lemma multiple_policies_not_fatal_without_mutation :
  ¬ (holds_multiple_policies Demo.app Demo.in_sync_two_policies →
     fatal_without_mutation Patterns.replace_pattern_sub Patterns.idna
       Patterns.domain_pattern_match Patterns.ip_pattern_match
       Demo.app Demo.in_sync_two_policies) ∧
  ¬ (holds_multiple_policies Demo.app Demo.stale_two_policies →
     fatal_without_mutation Patterns.replace_pattern_sub Patterns.idna
       Patterns.domain_pattern_match Patterns.ip_pattern_match
       Demo.app Demo.stale_two_policies).
Proof.
  split; intros Hclaim.
  - destruct Hclaim as (w' & t & Hrun & Hquiet).
    + eexists _, _. split; [vm_compute; reflexivity|].
      vm_compute. reflexivity.
    + vm_compute in Hrun. discriminate.
  - destruct Hclaim as (w' & t & Hrun & Hquiet).
    + eexists _, _. split; [vm_compute; reflexivity|].
      vm_compute. reflexivity.
    + vm_compute in Hrun. simplify_eq. vm_compute in Hquiet.
      inversion Hquiet as [|c cs _ Hrest]; subst.
      inversion Hrest as [|c cs _ Hrest']; subst.
      inversion Hrest' as [|c cs _ Hrest'']; subst.
      inversion Hrest'' as [|c cs Hmut _]; subst. discriminate.
Qed.

Lemma run_on_multiple_policies_witness :
  (∃ w' t,
     Patterns.run Demo.app Demo.in_sync_two_policies = (Returned tt, w', t) ∧
     calls t =
       (session_get <$> (adlist_urls Demo.app ++ whitelist_urls Demo.app))
       ++ [get_lists (name_prefix Demo.app);
           get_firewall_policies (name_prefix Demo.app)] ∧
     Forall (λ c, mutates c = false) (calls t)) ∧
  (∃ chunks w' t,
     chunk_list ["example.com"; "malware.test"] 1000 = Some chunks ∧
     Patterns.run Demo.app Demo.stale_two_policies
       = (Raised "More than one firewall policy found", w', t) ∧
     calls t =
       (session_get <$> (adlist_urls Demo.app ++ whitelist_urls Demo.app))
       ++ [get_lists (name_prefix Demo.app)]
       ++ rebuild_calls Demo.app chunks []
       ++ [get_firewall_policies (name_prefix Demo.app)] ∧
     delete_gateway_policy (name_prefix Demo.app +:+ " Block Ads") ∈ calls t ∧
     (∀ c, c ∈ calls t →
           (∀ name ids, c ≠ create_gateway_policy name ids) ∧
           (∀ name id ids, c ≠ update_gateway_policy name id ids))).
Proof.
  split.
  - eapply (run_on_multiple_policies _ _ _ _ Demo.app Demo.in_sync_two_policies
              ["example.com"; "malware.test"] Demo.in_sync_two_policies
              [Demo.old_list] Demo.in_sync_two_policies).
    + by apply demo_computes_two.
    + vm_compute. split; [reflexivity|discriminate].
    + reflexivity.
    + reflexivity.
    + eexists _, _. split; [vm_compute; reflexivity|].
      vm_compute. reflexivity.
  - eapply (run_on_multiple_policies _ _ _ _ Demo.app Demo.stale_two_policies
              ["example.com"; "malware.test"] Demo.stale_two_policies
              [] Demo.stale_two_policies).
    + by apply demo_computes_two.
    + vm_compute. split; [reflexivity|discriminate].
    + reflexivity.
    + vm_compute. discriminate.
    + vm_compute. reflexivity.
    + eexists _, _. split; [vm_compute; reflexivity|].
      vm_compute. reflexivity.
Defined.

(** * Part III: further properties of the code *)

(** ** RedundancyReducer, in full *)

(** X1: [remove_subdomains] keeps exactly the entries of the input none of
    whose strict parents is a multi-label entry of the input. *)
Theorem remove_subdomains_exact (domains : gset string) d :
  d ∈ remove_subdomains domains ↔
  d ∈ domains ∧
  ∀ b, b ∈ domains → ¬ single_label b → ¬ strict_subdomain d b.
Proof. apply elem_of_remove_subdomains. Qed.

(** X2: reducing twice changes nothing more. *)
Theorem remove_subdomains_idempotent (domains : gset string) :
  remove_subdomains (remove_subdomains domains) = remove_subdomains domains.
Proof.
  apply set_eq. intros x. rewrite !elem_of_remove_subdomains. split.
  - intros [Hx _]. exact Hx.
  - intros [Hx Hno]. split; [done|].
    intros b Hb Hmulti. apply elem_of_remove_subdomains in Hb as [Hb _]. auto.
Qed.

(** X3: on an input without single-label entries the output is free of
    redundancy in the full sense: no entry of the output is a strict
    sub-domain of an entry of the input. *)
Theorem remove_subdomains_redundancy_free_multi_label (domains : gset string) :
  (∀ d, d ∈ domains → ¬ single_label d) →
  redundancy_free domains.
Proof.
  intros Hmulti. split.
  - intros a b [_ Hno]%elem_of_remove_subdomains [Hb _]%elem_of_remove_subdomains.
    auto.
  - intros a b [_ Hno]%elem_of_remove_subdomains Hb. auto.
Qed.

Lemma remove_subdomains_redundancy_free_multi_label_witness :
  redundancy_free (list_to_set ["ads.example.com"; "example.com"; "tracker.io"]).
Proof.
  apply remove_subdomains_redundancy_free_multi_label.
  intros d. rewrite elem_of_list_to_set, !elem_of_cons, elem_of_nil.
  intros [->|[->|[->|[]]]]; by apply (bool_decide_unpack _); vm_compute.
Defined.

(** X4: a single-label entry is always kept, and so is every entry that has
    no strict parent in the input. *)
Theorem remove_subdomains_keeps_roots (domains : gset string) d :
  d ∈ domains →
  single_label d ∨ (∀ b, b ∈ domains → ¬ strict_subdomain d b) →
  d ∈ remove_subdomains domains.
Proof.
  intros Hd Hroot. apply elem_of_remove_subdomains. split; [done|].
  intros b Hb _. destruct Hroot as [Hs|Hno]; [by apply single_label_no_parent|auto].
Qed.

Lemma remove_subdomains_keeps_roots_witness :
  "com" ∈ remove_subdomains (list_to_set ["com"; "a.com"; "b.a.com"]).
Proof.
  apply remove_subdomains_keeps_roots.
  - by apply (bool_decide_unpack _); vm_compute.
  - left. by apply (bool_decide_unpack _); vm_compute.
Defined.

(** ** Chunker, at the edges *)

(** X5: a chunk size of zero is an error ([range] refuses a zero step), and
    a negative chunk size yields no chunk at all, whatever the list. *)
Theorem chunk_list_without_positive_size {A} (l : list A) (n : Z) :
  n ≤ 0 →
  chunk_list l n = if n =? 0 then None else Some [].
Proof.
  intros Hn. unfold chunk_list, Py.range.
  destruct (Z.eqb_spec n 0) as [->|Hne]; [done|].
  destruct (Z.ltb_spec 0 n); [lia|].
  assert ((0 - Py.len l - n - 1) `div` (- n) ≤ 0) as Hq.
  { unfold Py.len. apply Z.lt_succ_r, Z.div_lt_upper_bound; lia. }
  destruct (Z.to_nat ((0 - Py.len l - n - 1) `div` (- n))) eqn:E; [done|lia].
Qed.

Lemma chunk_list_without_positive_size_witness :
  chunk_list ["a.com"; "b.com"] (-1) = Some [].
Proof. apply (chunk_list_without_positive_size ["a.com"; "b.com"] (-1)). lia. Defined.

(** X6: for a positive chunk size [n] a list of [len] entries is cut into
    [ceil(len / n)] chunks; an empty list gives no chunk. *)
Theorem chunk_list_count {A} (l : list A) (n : Z) chunks :
  0 < n →
  chunk_list l n = Some chunks →
  Py.len chunks = (Py.len l + n - 1) `div` n ∧
  (l = [] → chunks = []).
Proof.
  intros Hn. rewrite chunk_list_pos by done. intros [= <-].
  assert (0 ≤ (Py.len l + n - 1) `div` n) as Hq.
  { apply Z.div_pos; unfold Py.len; lia. }
  split.
  - unfold Py.len at 1. rewrite length_fmap, length_seq. lia.
  - intros ->. change (Py.len (@nil A)) with 0.
    rewrite Z.div_small by lia. done.
Qed.

Lemma chunk_list_count_witness :
  Py.len [["a.com"; "b.com"]; ["c.com"]] = (Py.len ["a.com"; "b.com"; "c.com"] + 2 - 1) `div` 2
  ∧ (["a.com"; "b.com"; "c.com"] = [] → [["a.com"; "b.com"]; ["c.com"]] = []).
Proof. apply chunk_list_count; [lia|reflexivity]. Defined.

(** ** Normalizer, beyond canonical input *)

Lemma lower_char_facts c :
  Py.lower_char (Py.lower_char c) = Py.lower_char c ∧
  Ascii.eqb (Py.lower_char c) "#" = Ascii.eqb c "#" ∧
  Ascii.eqb (Py.lower_char c) "!" = Ascii.eqb c "!" ∧
  Ascii.eqb (Py.lower_char c) "/" = Ascii.eqb c "/".
Proof. destruct c as [[] [] [] [] [] [] [] []]; vm_compute; repeat split. Qed.

Lemma lower_idempotent s : Py.lower (Py.lower s) = Py.lower s.
Proof.
  induction s as [|c s IH]; [done|]. simpl. rewrite IH.
  by destruct (lower_char_facts c) as (-> & _).
Qed.

Lemma lower_app s t : Py.lower (s +:+ t) = Py.lower s +:+ Py.lower t.
Proof. induction s as [|c s IH]; [done|]. str_simpl. simpl. by rewrite IH. Qed.

Lemma lower_no_hash s :
  all_chars (λ c, negb (Ascii.eqb c "#")) s = true →
  all_chars (λ c, negb (Ascii.eqb c "#")) (Py.lower s) = true.
Proof.
  induction s as [|c s IH]; [done|]. simpl. rewrite !andb_true_iff.
  intros [Hc Hs]. destruct (lower_char_facts c) as (_ & -> & _). auto.
Qed.

Lemma lstrip_no_hash s :
  all_chars (λ c, negb (Ascii.eqb c "#")) s = true →
  all_chars (λ c, negb (Ascii.eqb c "#")) (Py.lstrip s) = true.
Proof.
  induction s as [|c s IH]; [done|]. simpl. intros Hs.
  destruct (Py.isspace c); [|done]. apply IH.
  by apply andb_true_iff in Hs as [_ ?].
Qed.

Lemma lstrip_before_hash u v :
  Py.lstrip (u +:+ String "#" v) = Py.lstrip u +:+ String "#" v.
Proof.
  induction u as [|c u IH]; [done|]. str_simpl. simpl.
  destruct (Py.isspace c); [exact IH|done].
Qed.

Lemma rstrip_from_hash v : ∃ v', Py.rstrip (String "#" v) = String "#" v'.
Proof. simpl. destruct (Py.rstrip v); eauto. Qed.

Lemma rstrip_before_hash u v :
  Py.rstrip (u +:+ String "#" v) = u +:+ Py.rstrip (String "#" v).
Proof.
  induction u as [|c u IH]; [done|]. str_simpl.
  change (Py.rstrip (String c (u +:+ String "#" v)))
    with (match Py.rstrip (u +:+ String "#" v) with
          | "" => if Py.isspace c then "" else String c ""
          | r => String c r
          end).
  rewrite IH. destruct (rstrip_from_hash v) as (v' & ->).
  by destruct u.
Qed.

Lemma split_first_part sep u v :
  all_chars (λ c, negb (Ascii.eqb c sep)) u = true →
  Py.first (Py.split sep (u +:+ String sep v)) = u.
Proof.
  induction u as [|c u IH]; str_simpl; simpl.
  - by rewrite Ascii.eqb_refl.
  - rewrite andb_true_iff, negb_true_iff. intros [-> Hu].
    specialize (IH Hu). pose proof (split_nonempty sep (u +:+ String sep v)).
    destruct (Py.split sep (u +:+ String sep v)); [done|].
    unfold Py.first in *. simpl in *. by rewrite IH.
Qed.

(** What is left of a line once it is cut at its first [#]. *)
Lemma cut_at_hash a b :
  all_chars (λ c, negb (Ascii.eqb c "#")) a = true →
  Py.first (Py.split "#" (Py.strip (Py.lower (a +:+ String "#" b))))
  = Py.lstrip (Py.lower a).
Proof.
  intros Ha. rewrite lower_app. unfold Py.strip.
  change (Py.lower (String "#" b)) with (String "#" (Py.lower b)).
  rewrite lstrip_before_hash, rstrip_before_hash.
  destruct (rstrip_from_hash (Py.lower b)) as (v' & ->).
  apply split_first_part. by apply lstrip_no_hash, lower_no_hash.
Qed.

Section NormalizerExtras.

Variable replace_pattern_sub : string → string.
Variable idna : string → option string.
Variable domain_pattern_match : string → bool.
Variable ip_pattern_match : string → bool.

(** X7: whatever the line, a domain the Normalizer returns is accepted by
    [domain_pattern] and is not matched by [ip_pattern]; it is the IDNA
    encoding of some text. *)
Theorem convert_domains_result_is_valid line d :
  convert_domains replace_pattern_sub idna domain_pattern_match ip_pattern_match line
  = Some d →
  domain_pattern_match d = true ∧ ip_pattern_match d = false ∧
  ∃ text, idna text = Some d.
Proof.
  unfold convert_domains.
  destruct (_ || _); [done|]. cbv zeta.
  destruct (idna _) as [domain|] eqn:Hidna; [|done].
  destruct (domain_pattern_match domain) eqn:Hdom; [|done].
  destruct (ip_pattern_match domain) eqn:Hip; [done|].
  intros [= <-]. eauto.
Qed.

(** X8: the Normalizer does not see the case of its input: a line and its
    lower-case form give the same result. *)
Theorem convert_domains_ignores_case line :
  convert_domains replace_pattern_sub idna domain_pattern_match ip_pattern_match
    (Py.lower line)
  = convert_domains replace_pattern_sub idna domain_pattern_match ip_pattern_match
      line.
Proof.
  unfold convert_domains. rewrite lower_idempotent.
  destruct line as [|c rest]; [done|].
  cbn [Py.lower Py.startswith].
  destruct (lower_char_facts c) as (_ & -> & -> & ->).
  rewrite !(bool_decide_eq_false_2 (String _ _ = "")) by done. done.
Qed.

(** X9: on a line that does not begin with [#], what follows the first [#]
    is never looked at: two lines that agree up to their first [#] give the
    same result. *)
Theorem convert_domains_ignores_inline_comment a b b' :
  all_chars (λ c, negb (Ascii.eqb c "#")) a = true →
  convert_domains replace_pattern_sub idna domain_pattern_match ip_pattern_match
    (a +:+ String "#" b)
  = convert_domains replace_pattern_sub idna domain_pattern_match ip_pattern_match
      (a +:+ String "#" b').
Proof.
  intros Ha. unfold convert_domains. rewrite !cut_at_hash by done.
  destruct a as [|c a']; [done|]. str_simpl. cbn [Py.startswith].
  rewrite !(bool_decide_eq_false_2 (String _ _ = "")) by done. done.
Qed.

End NormalizerExtras.

Lemma convert_domains_result_is_valid_witness :
  Patterns.domain_pattern_match "malware.test" = true ∧
  Patterns.ip_pattern_match "malware.test" = false ∧
  ∃ text, Patterns.idna text = Some "malware.test".
Proof.
  apply (convert_domains_result_is_valid Patterns.replace_pattern_sub Patterns.idna
           Patterns.domain_pattern_match Patterns.ip_pattern_match
           "0.0.0.0 malware.test").
  reflexivity.
Defined.

Lemma convert_domains_ignores_inline_comment_witness :
  Patterns.convert_domains ("example.com" +:+ String "#" " ads")
  = Patterns.convert_domains ("example.com" +:+ String "#" "").
Proof.
  apply (convert_domains_ignores_inline_comment Patterns.replace_pattern_sub
           Patterns.idna Patterns.domain_pattern_match Patterns.ip_pattern_match
           "example.com" " ads" "").
  reflexivity.
Defined.

(** ** Consolidator and SetCombiner, end to end *)

Section ConsolidatorExtras.

Variable replace_pattern_sub : string → string.
Variable idna : string → option string.
Variable domain_pattern_match : string → bool.
Variable ip_pattern_match : string → bool.

Local Abbreviation normalize :=
  (convert_domains replace_pattern_sub idna domain_pattern_match ip_pattern_match).
Local Abbreviation add :=
  (add_line replace_pattern_sub idna domain_pattern_match ip_pattern_match).
Local Abbreviation collect :=
  (collect_domains replace_pattern_sub idna domain_pattern_match ip_pattern_match).

Local Abbreviation produced :=
  (produced_by replace_pattern_sub idna domain_pattern_match ip_pattern_match).

Lemma elem_of_add_line domains line d :
  d ∈ add domains line ↔ d ∈ domains ∨ (d ≠ "" ∧ normalize line = Some d).
Proof.
  unfold add_line. destruct (normalize line) as [domain|]; [|naive_solver].
  case_bool_decide as Hempty.
  - subst domain. naive_solver.
  - rewrite elem_of_union, elem_of_singleton. naive_solver.
Qed.

Lemma elem_of_foldl_add_line lines domains d :
  d ∈ foldl add domains lines ↔ d ∈ domains ∨ produced lines d.
Proof.
  unfold produced_by. revert domains.
  induction lines as [|line lines IH]; intros domains; simpl.
  - split; [auto|]. intros [?|(_ & l & Hl & _)]; [done|]. by apply elem_of_nil in Hl.
  - rewrite IH, elem_of_add_line. split.
    + intros [[?|[Hne Hline]]|(Hne & l & Hl & Hd)]; [by left|right..].
      * split; [done|]. exists line. split; [apply elem_of_cons; by left|done].
      * split; [done|]. exists l. split; [apply elem_of_cons; by right|done].
    + intros [?|(Hne & l & Hl & Hd)]; [by left; left|].
      apply elem_of_cons in Hl as [->|Hl]; [left; right; done|].
      right. eauto.
Qed.

Lemma elem_of_collect_domains content d :
  d ∈ collect content ↔ produced (Py.splitlines content) d.
Proof.
  unfold collect_domains. rewrite elem_of_foldl_add_line.
  split; [|by right]. intros [Hin|?]; [|done]. by apply not_elem_of_empty in Hin.
Qed.

Lemma size_foldl_add_line lines domains :
  (size (foldl add domains lines) ≤ size domains + length lines)%nat.
Proof.
  revert domains. induction lines as [|line lines IH]; intros domains; simpl; [lia|].
  etrans; [apply IH|].
  assert (size (add domains line) ≤ S (size domains))%nat; [|lia].
  unfold add_line. destruct (normalize line) as [domain|]; [|lia].
  case_bool_decide; [lia|].
  rewrite size_union_alt, size_singleton.
  assert (domains ∖ {[domain]} ⊆ domains) as Hsub by set_solver.
  apply subseteq_size in Hsub. lia.
Qed.

(** X10: the set collected from a text holds exactly the non-empty domains
    the Normalizer makes of its lines. *)
Theorem collect_domains_exact content d :
  d ∈ collect_domains replace_pattern_sub idna domain_pattern_match
        ip_pattern_match content ↔
  d ≠ "" ∧
  ∃ line, line ∈ Py.splitlines content ∧
          convert_domains replace_pattern_sub idna domain_pattern_match
            ip_pattern_match line = Some d.
Proof. apply elem_of_collect_domains. Qed.

(** X11: a domain is in the final list exactly when a block line
    normalises to it, no block line normalises to a multi-label strict
    parent of it, and no allow line normalises to it. *)
Theorem domain_list_exact block_content white_content d :
  d ∈ domain_list replace_pattern_sub idna domain_pattern_match ip_pattern_match
        block_content white_content ↔
  produced_by replace_pattern_sub idna domain_pattern_match ip_pattern_match
    (Py.splitlines block_content) d ∧
  (∀ b, produced_by replace_pattern_sub idna domain_pattern_match
          ip_pattern_match (Py.splitlines block_content) b →
        ¬ single_label b → ¬ strict_subdomain d b) ∧
  ¬ produced_by replace_pattern_sub idna domain_pattern_match ip_pattern_match
      (Py.splitlines white_content) d.
Proof.
  unfold domain_list.
  rewrite elem_of_final_domains, elem_of_remove_subdomains.
  rewrite !elem_of_collect_domains. split.
  - intros [[Hd Hno] Hw]. split; [done|split; [|done]].
    intros b Hb. apply Hno. by apply elem_of_collect_domains.
  - intros (Hd & Hno & Hw). split; [split; [done|]|done].
    intros b Hb. apply Hno. by apply elem_of_collect_domains.
Qed.

(** X12: the final list depends on the set of lines of each text only:
    reordering or repeating lines changes nothing. *)
Theorem domain_list_ignores_line_order block_content block_content'
    white_content white_content' :
  (∀ line, line ∈ Py.splitlines block_content ↔ line ∈ Py.splitlines block_content') →
  (∀ line, line ∈ Py.splitlines white_content ↔ line ∈ Py.splitlines white_content') →
  domain_list replace_pattern_sub idna domain_pattern_match ip_pattern_match
    block_content white_content
  = domain_list replace_pattern_sub idna domain_pattern_match ip_pattern_match
      block_content' white_content'.
Proof.
  intros Hblock Hwhite. unfold domain_list.
  assert (∀ c c', (∀ line, line ∈ Py.splitlines c ↔ line ∈ Py.splitlines c') →
                  collect c = collect c') as Hcollect.
  { intros c c' Hlines. apply set_eq. intros d.
    rewrite !elem_of_collect_domains. unfold produced_by.
    split; intros (Hne & l & Hl & Hd); (split; [done|]); exists l;
      (split; [by apply Hlines|done]). }
  by rewrite (Hcollect _ _ Hblock), (Hcollect _ _ Hwhite).
Qed.

(** X13: the final list is never longer than the block text has lines. *)
Theorem domain_list_at_most_one_per_line block_content white_content :
  Py.len (domain_list replace_pattern_sub idna domain_pattern_match
            ip_pattern_match block_content white_content)
  ≤ Py.len (Py.splitlines block_content).
Proof.
  unfold domain_list, Py.len.
  rewrite (Permutation_length (final_domains_Permutation _ _)).
  pose proof (size_foldl_add_line (Py.splitlines block_content) ∅) as Hsize.
  rewrite size_empty in Hsize. fold (collect block_content) in Hsize.
  assert (remove_subdomains (collect block_content) ∖ collect white_content
          ⊆ collect block_content) as Hsub.
  { intros d [[Hd _]%elem_of_remove_subdomains _]%elem_of_difference. done. }
  apply subseteq_size in Hsub.
  change (length (elements ?X)) with (size X). lia.
Qed.

End ConsolidatorExtras.

Lemma domain_list_ignores_line_order_witness :
  Patterns.domain_list ("b.test" +:+ lf +:+ "a.test" +:+ lf +:+ "b.test" +:+ lf) ""
  = Patterns.domain_list ("a.test" +:+ lf +:+ "b.test" +:+ lf) "".
Proof.
  apply domain_list_ignores_line_order; [|done].
  intros line. vm_compute Py.splitlines.
  rewrite !elem_of_cons, !elem_of_nil. tauto.
Defined.

(** ** Reconciler: the remaining paths of [run] *)

Section RunExtras.

Context {W : Type} `{!Remote W}.

Variable replace_pattern_sub : string → string.
Variable idna : string → option string.
Variable domain_pattern_match : string → bool.
Variable ip_pattern_match : string → bool.

(** With no policy left, [setup_policy] creates one over the new lists. *)
Lemma setup_policy_creates self cf_lists w w1 policy w2 :
  handle (get_firewall_policies (name_prefix self)) w = ([], w1) →
  handle (create_gateway_policy (name_prefix self +:+ " Block Ads")
            (list_id <$> cf_lists)) w1 = (policy, w2) →
  ∃ t, setup_policy self cf_lists w = (Returned tt, w2, t) ∧
       last t = Some (Logged INFO "Done") ∧
       calls t = [get_firewall_policies (name_prefix self);
                  create_gateway_policy (name_prefix self +:+ " Block Ads")
                    (list_id <$> cf_lists)].
Proof.
  intros Hget Hcreate. eexists. split; [|split].
  - unfold setup_policy.
    erewrite bind_returned; [reflexivity|exact (await_handle _ _ _ _ Hget)|].
    erewrite bind_returned; [reflexivity|reflexivity|].
    erewrite bind_returned; [reflexivity| |reflexivity].
    change (Py.len (@nil cf_policy) =? 0) with true. cbv iota.
    erewrite bind_returned; [reflexivity|reflexivity|].
    erewrite bind_returned; [reflexivity|exact (await_handle _ _ _ _ Hcreate)|].
    reflexivity.
  - done.
  - done.
Qed.

(** With exactly one policy, [setup_policy] updates that one. *)
Lemma setup_policy_updates self cf_lists w policy w1 ack w2 :
  handle (get_firewall_policies (name_prefix self)) w = ([policy], w1) →
  handle (update_gateway_policy (name_prefix self +:+ " Block Ads")
            (policy_id policy) (list_id <$> cf_lists)) w1 = (ack, w2) →
  ∃ t, setup_policy self cf_lists w = (Returned tt, w2, t) ∧
       last t = Some (Logged INFO "Done") ∧
       calls t = [get_firewall_policies (name_prefix self);
                  update_gateway_policy (name_prefix self +:+ " Block Ads")
                    (policy_id policy) (list_id <$> cf_lists)].
Proof.
  intros Hget Hupdate. destruct ack. eexists. split; [|split].
  - unfold setup_policy.
    erewrite bind_returned; [reflexivity|exact (await_handle _ _ _ _ Hget)|].
    erewrite bind_returned; [reflexivity|reflexivity|].
    erewrite bind_returned; [reflexivity| |reflexivity].
    change (Py.len [policy] =? 0) with false.
    change (Py.len [policy] =? 1) with true. cbn [negb]. cbv iota.
    erewrite bind_returned; [reflexivity|reflexivity|].
    exact (await_handle _ _ _ _ Hupdate).
  - done.
  - done.
Qed.

(** [setup_policy] ends by returning or by the multiple-policies error. *)
Lemma setup_policy_outcome self cf_lists w :
  ∃ o w' t, setup_policy self cf_lists w = (o, w', t) ∧
            (o = Returned tt ∨ o = Raised "More than one firewall policy found").
Proof.
  destruct (handle (get_firewall_policies (name_prefix self)) w)
    as [cf_policies w1] eqn:Hget.
  destruct cf_policies as [|policy [|policy' rest]].
  - destruct (handle (create_gateway_policy (name_prefix self +:+ " Block Ads")
                        (list_id <$> cf_lists)) w1) as [p w2] eqn:Hcreate.
    destruct (setup_policy_creates _ _ _ _ _ _ Hget Hcreate) as (t & Hrun & _).
    eauto 6.
  - destruct (handle (update_gateway_policy (name_prefix self +:+ " Block Ads")
                        (policy_id policy) (list_id <$> cf_lists)) w1)
      as [ack w2] eqn:Hupdate.
    destruct (setup_policy_updates _ _ _ _ _ _ _ Hget Hupdate) as (t & Hrun & _).
    eauto 6.
  - destruct (setup_policy_raises self cf_lists w (policy :: policy' :: rest) w1 Hget)
      as (t & Hrun & _); [unfold Py.len; simpl; lia|].
    eauto 6.
Qed.

Lemma check_policy_outcome self cf_lists w :
  ∃ w' t, check_policy self cf_lists w = (Returned tt, w', t).
Proof.
  destruct (handle (get_firewall_policies (name_prefix self)) w)
    as [cf_policies w1] eqn:Hget.
  destruct cf_policies as [|policy rest].
  - destruct (handle (create_gateway_policy (name_prefix self +:+ " Block Ads")
                        (list_id <$> cf_lists)) w1) as [p w2] eqn:Hcreate.
    destruct (check_policy_creates _ _ _ _ _ _ Hget Hcreate) as (t & Hrun & _).
    eauto.
  - destruct (check_policy_skips self cf_lists w (policy :: rest) w1 Hget)
      as (t & Hrun & _); [unfold Py.len; simpl; lia|].
    eauto.
Qed.

Lemma reconcile_outcome self domains w :
  ∃ o w' t, reconcile self domains w = (o, w', t) ∧
            (o = Returned tt ∨ o = Raised "More than one firewall policy found").
Proof.
  destruct (decide (Py.len domains = 0 ∨ 300000 < Py.len domains)) as [Hsize|Hsize].
  { destruct (reconcile_aborts self domains w Hsize) as (msg & Hrun). eauto 6. }
  assert (0 < Py.len domains ≤ 300000) as Hok by (unfold Py.len in *; lia).
  destruct (handle (get_lists (name_prefix self)) w) as [cf_lists w1] eqn:Hget.
  destruct (decide (Py.sum (list_count <$> cf_lists) = Py.len domains)) as [Hsum|Hsum].
  - destruct (check_policy_outcome self cf_lists w1) as (w2 & t & Hcheck).
    destruct (reconcile_in_sync _ _ _ _ _ _ _ _ Hok Hget Hsum Hcheck) as (t0 & Hrun & _).
    eauto 6.
  - destruct (rebuild_lists_returns self domains cf_lists w1)
      as (chunks & new_lists & w2 & t2 & _ & Hrebuild & _).
    destruct (setup_policy_outcome self new_lists w2) as (o & w3 & t3 & Hsetup & Ho).
    destruct (reconcile_rebuilds _ _ _ _ _ _ _ _ _ _ _ Hok Hget Hsum Hrebuild Hsetup)
      as (t0 & Hrun & _).
    eauto 6.
Qed.

(** X14: when the final list is within the size guards, the remote counts
    sum up to its size and at least one policy exists for the namespace, the
    run returns without changing the store: its remote calls are the
    downloads and the two reads. *)
Theorem run_skips_when_in_sync self w domains w1 cf_lists w2 cf_policies w3 :
  computes replace_pattern_sub idna domain_pattern_match ip_pattern_match
    self w domains w1 →
  0 < Py.len domains ≤ 300000 →
  handle (get_lists (name_prefix self)) w1 = (cf_lists, w2) →
  Py.sum (list_count <$> cf_lists) = Py.len domains →
  handle (get_firewall_policies (name_prefix self)) w2 = (cf_policies, w3) →
  0 < Py.len cf_policies →
  ∃ t,
    run replace_pattern_sub idna domain_pattern_match ip_pattern_match self w
      = (Returned tt, w3, t) ∧
    calls t =
      (session_get <$> (adlist_urls self ++ whitelist_urls self))
      ++ [get_lists (name_prefix self); get_firewall_policies (name_prefix self)] ∧
    Forall (λ c, mutates c = false) (calls t).
Proof.
  intros Hcomp Hsize Hlists Hsum Hpol Hsome.
  destruct (check_policy_skips self cf_lists w2 cf_policies w3 Hpol Hsome)
    as (t & Hcheck & Hc).
  destruct (reconcile_in_sync self domains w1 cf_lists w2 _ _ _
              Hsize Hlists Hsum Hcheck) as (t0 & Hrec & Hc0).
  destruct (run_computes _ _ _ _ _ _ _ _ _ _ _ Hcomp Hrec) as (t1 & Hrun & Hc1).
  exists (t1 ++ t0 ++ t). split; [done|].
  assert (calls (t1 ++ t0 ++ t) =
          (session_get <$> (adlist_urls self ++ whitelist_urls self))
          ++ [get_lists (name_prefix self); get_firewall_policies (name_prefix self)])
    as Hcalls by (by rewrite !calls_app, Hc1, Hc0, Hc).
  split; [done|]. rewrite Hcalls. apply Forall_app. split.
  - apply Forall_fmap, Forall_true. done.
  - repeat constructor.
Qed.

(** X15: on the rebuild path, when no policy is found after the new lists
    are created, the run creates one policy over the identifiers of the new
    lists, logs [Done] and returns. *)
Theorem run_rebuild_creates_policy
    self w domains w1 cf_lists w2 new_lists w3 t3 w4 :
  computes replace_pattern_sub idna domain_pattern_match ip_pattern_match
    self w domains w1 →
  0 < Py.len domains ≤ 300000 →
  handle (get_lists (name_prefix self)) w1 = (cf_lists, w2) →
  Py.sum (list_count <$> cf_lists) ≠ Py.len domains →
  rebuild_lists self domains cf_lists w2 = (Returned new_lists, w3, t3) →
  handle (get_firewall_policies (name_prefix self)) w3 = ([], w4) →
  ∃ chunks w' t,
    chunk_list domains 1000 = Some chunks ∧
    run replace_pattern_sub idna domain_pattern_match ip_pattern_match self w
      = (Returned tt, w', t) ∧
    last t = Some (Logged INFO "Done") ∧
    calls t =
      (session_get <$> (adlist_urls self ++ whitelist_urls self))
      ++ [get_lists (name_prefix self)]
      ++ rebuild_calls self chunks cf_lists
      ++ [get_firewall_policies (name_prefix self);
          create_gateway_policy (name_prefix self +:+ " Block Ads")
            (list_id <$> new_lists)].
Proof.
  intros Hcomp Hsize Hlists Hsum Hrebuild Hpol.
  destruct (rebuild_lists_returns self domains cf_lists w2)
    as (chunks & new_lists' & w3' & t3' & Hchunks & Hrebuild' & _ & Hc3).
  rewrite Hrebuild in Hrebuild'. simplify_eq.
  destruct (handle (create_gateway_policy (name_prefix self +:+ " Block Ads")
                      (list_id <$> new_lists')) w4) as [policy w5] eqn:Hcreate.
  destruct (setup_policy_creates self new_lists' w3' w4 policy w5 Hpol Hcreate)
    as (t4 & Hsetup & Hlast & Hc4).
  destruct (reconcile_rebuilds self domains w1 cf_lists w2 new_lists' w3' t3'
              _ _ _ Hsize Hlists Hsum Hrebuild Hsetup) as (t0 & Hrec & Hc0).
  destruct (run_computes _ _ _ _ _ _ _ _ _ _ _ Hcomp Hrec) as (t1 & Hrun & Hc1).
  exists chunks, w5, (t1 ++ t0 ++ t3' ++ t4).
  split; [done|]. split; [done|]. split.
  - rewrite !last_app, Hlast. done.
  - by rewrite !calls_app, Hc1, Hc0, Hc3, Hc4.
Qed.

(** X16: on the rebuild path, when exactly one policy is found after the new
    lists are created, the run updates that policy, by its identifier, to
    the identifiers of the new lists, logs [Done] and returns. *)
Theorem run_rebuild_updates_policy
    self w domains w1 cf_lists w2 new_lists w3 t3 policy w4 :
  computes replace_pattern_sub idna domain_pattern_match ip_pattern_match
    self w domains w1 →
  0 < Py.len domains ≤ 300000 →
  handle (get_lists (name_prefix self)) w1 = (cf_lists, w2) →
  Py.sum (list_count <$> cf_lists) ≠ Py.len domains →
  rebuild_lists self domains cf_lists w2 = (Returned new_lists, w3, t3) →
  handle (get_firewall_policies (name_prefix self)) w3 = ([policy], w4) →
  ∃ chunks w' t,
    chunk_list domains 1000 = Some chunks ∧
    run replace_pattern_sub idna domain_pattern_match ip_pattern_match self w
      = (Returned tt, w', t) ∧
    last t = Some (Logged INFO "Done") ∧
    calls t =
      (session_get <$> (adlist_urls self ++ whitelist_urls self))
      ++ [get_lists (name_prefix self)]
      ++ rebuild_calls self chunks cf_lists
      ++ [get_firewall_policies (name_prefix self);
          update_gateway_policy (name_prefix self +:+ " Block Ads")
            (policy_id policy) (list_id <$> new_lists)].
Proof.
  intros Hcomp Hsize Hlists Hsum Hrebuild Hpol.
  destruct (rebuild_lists_returns self domains cf_lists w2)
    as (chunks & new_lists' & w3' & t3' & Hchunks & Hrebuild' & _ & Hc3).
  rewrite Hrebuild in Hrebuild'. simplify_eq.
  destruct (handle (update_gateway_policy (name_prefix self +:+ " Block Ads")
                      (policy_id policy) (list_id <$> new_lists')) w4)
    as [ack w5] eqn:Hupdate.
  destruct (setup_policy_updates self new_lists' w3' policy w4 ack w5 Hpol Hupdate)
    as (t4 & Hsetup & Hlast & Hc4).
  destruct (reconcile_rebuilds self domains w1 cf_lists w2 new_lists' w3' t3'
              _ _ _ Hsize Hlists Hsum Hrebuild Hsetup) as (t0 & Hrec & Hc0).
  destruct (run_computes _ _ _ _ _ _ _ _ _ _ _ Hcomp Hrec) as (t1 & Hrun & Hc1).
  exists chunks, w5, (t1 ++ t0 ++ t3' ++ t4).
  split; [done|]. split; [done|]. split.
  - rewrite !last_app, Hlast. done.
  - by rewrite !calls_app, Hc1, Hc0, Hc3, Hc4.
Qed.

(** X17: whatever the collaborators answer, [run] ends, and the only
    exception it can end with is the multiple-policies one: the chunk size
    is never zero and the policy updated is always there. *)
Theorem run_raises_nothing_else self w :
  ∃ o w' t,
    run replace_pattern_sub idna domain_pattern_match ip_pattern_match self w
      = (o, w', t) ∧
    (o = Returned tt ∨ o = Raised "More than one firewall policy found").
Proof.
  destruct (compute_domains_returns replace_pattern_sub idna domain_pattern_match
              ip_pattern_match self w) as (results & w1 & t1 & Hcomp & _).
  match type of Hcomp with _ = (Returned ?domains, _, _) =>
    destruct (reconcile_outcome self domains w1) as (o & w2 & t2 & Hrec & Ho)
  end.
  exists o, w2, (t1 ++ t2). split; [|done].
  unfold run. by erewrite bind_returned.
Qed.

(** X18: the download phase fetches every configured URL once, the block
    lists first and in the order given, and returns one text per URL. *)
Theorem download_all_one_call_per_url self w :
  ∃ results w1 t1,
    download_all self w = (Returned results, w1, t1) ∧
    length results = length (adlist_urls self ++ whitelist_urls self) ∧
    calls t1 = session_get <$> (adlist_urls self ++ whitelist_urls self).
Proof. apply download_all_returns. Qed.

End RunExtras.

Lemma run_skips_when_in_sync_witness :
  ∃ t,
    Patterns.run Demo.app Demo.in_sync_two_policies
      = (Returned tt, Demo.in_sync_two_policies, t) ∧
    calls t =
      (session_get <$> (adlist_urls Demo.app ++ whitelist_urls Demo.app))
      ++ [get_lists (name_prefix Demo.app);
          get_firewall_policies (name_prefix Demo.app)] ∧
    Forall (λ c, mutates c = false) (calls t).
Proof.
  eapply (run_skips_when_in_sync _ _ _ _ Demo.app Demo.in_sync_two_policies
            ["example.com"; "malware.test"] Demo.in_sync_two_policies
            [Demo.old_list] Demo.in_sync_two_policies).
  - by apply demo_computes_two.
  - vm_compute. split; [reflexivity|discriminate].
  - reflexivity.
  - reflexivity.
  - vm_compute. reflexivity.
  - reflexivity.
Defined.

Lemma run_rebuild_creates_policy_witness :
  ∃ chunks w' t,
    chunk_list ["example.com"; "malware.test"] 1000 = Some chunks ∧
    Patterns.run Demo.app Demo.fresh = (Returned tt, w', t) ∧
    last t = Some (Logged INFO "Done") ∧
    calls t =
      (session_get <$> (adlist_urls Demo.app ++ whitelist_urls Demo.app))
      ++ [get_lists (name_prefix Demo.app)]
      ++ rebuild_calls Demo.app chunks []
      ++ [get_firewall_policies (name_prefix Demo.app);
          create_gateway_policy (name_prefix Demo.app +:+ " Block Ads") ["list-1"]].
Proof.
  eapply (run_rebuild_creates_policy _ _ _ _ Demo.app Demo.fresh
            ["example.com"; "malware.test"] Demo.fresh [] Demo.fresh
            [{| list_id := "list-1"; list_name := "[AdBlock-ads] 1"; list_count := 2 |}]).
  - by apply demo_computes_two.
  - vm_compute. split; [reflexivity|discriminate].
  - reflexivity.
  - vm_compute. discriminate.
  - vm_compute. reflexivity.
  - vm_compute. reflexivity.
Defined.

Lemma run_rebuild_updates_policy_witness :
  ∃ chunks w' t,
    chunk_list ["example.com"; "malware.test"] 1000 = Some chunks ∧
    Patterns.run Demo.app Demo.stale_one_policy = (Returned tt, w', t) ∧
    last t = Some (Logged INFO "Done") ∧
    calls t =
      (session_get <$> (adlist_urls Demo.app ++ whitelist_urls Demo.app))
      ++ [get_lists (name_prefix Demo.app)]
      ++ rebuild_calls Demo.app chunks []
      ++ [get_firewall_policies (name_prefix Demo.app);
          update_gateway_policy (name_prefix Demo.app +:+ " Block Ads")
            "policy-8" ["list-10"]].
Proof.
  eapply (run_rebuild_updates_policy _ _ _ _ Demo.app Demo.stale_one_policy
            ["example.com"; "malware.test"] Demo.stale_one_policy []
            Demo.stale_one_policy
            [{| list_id := "list-10"; list_name := "[AdBlock-ads] 1"; list_count := 2 |}]
            _ _ (Demo.policy "policy-8" "[AdBlock-ads] Legacy A")).
  - by apply demo_computes_two.
  - vm_compute. split; [reflexivity|discriminate].
  - reflexivity.
  - vm_compute. discriminate.
  - vm_compute. reflexivity.
  - vm_compute. reflexivity.
Defined.

(** ** The lists a rebuild creates, [App.delete] and the namespace *)

Lemma chunks_cover {A} (l : list A) (n : Z) chunks :
  0 < n →
  chunk_list l n = Some chunks →
  concat chunks = l ∧ Forall (λ chunk, 0 < Py.len chunk ≤ n) chunks.
Proof.
  intros Hn. rewrite chunk_list_pos by done. intros [= <-].
  assert (0 ≤ Py.len l) as Hlen by (unfold Py.len; lia).
  split.
  - apply concat_chunks. pose proof (num_chunks_enough (Py.len l) n Hn Hlen).
    unfold Py.len in *. nia.
  - apply Forall_fmap, Forall_forall. intros k Hk.
    apply elem_of_seq in Hk as [_ Hk]. simpl in Hk.
    pose proof (num_chunks_bounds (Py.len l) n k Hn Hlen Hk).
    unfold Py.len in *. simpl. rewrite length_take, length_drop. nia.
Qed.

Lemma startswith_app prefix rest : Py.startswith (prefix +:+ rest) prefix = true.
Proof.
  induction prefix as [|c p IH]; [done|]. str_simpl. simpl.
  by rewrite Ascii.eqb_refl, IH.
Qed.

Lemma created_lists_of_rebuild_calls (self : App) chunks cf_lists t :
  calls t = rebuild_calls self chunks cf_lists →
  created_lists t =
    (λ p : Z * list string, (name_prefix self +:+ " " +:+ Py.str (p.1 + 1), p.2))
      <$> Py.enumerate chunks.
Proof.
  intros Hcalls. unfold created_lists. rewrite Hcalls. unfold rebuild_calls.
  cbn [omap list_omap]. rewrite omap_app.
  assert (∀ ls : list cf_list,
            omap (λ c, match c with
                       | create_list name domains => Some (name, domains)
                       | _ => None
                       end)
              ((λ l, delete_list (list_name l) (list_id l)) <$> ls) = []) as ->.
  { intros ls. induction ls as [|l ls IH]; [done|]. csimpl. exact IH. }
  simpl. induction (Py.enumerate chunks) as [|p ps IH]; [done|].
  csimpl. by rewrite IH.
Qed.

Section RebuildExtras.

Context {W : Type} `{!Remote W}.

(** X19: the lists a rebuild creates carry the final list, in order and cut
    into pieces of 1 to 1000 domains; the list at position [i] is named
    after the namespace and the number [i + 1], so the names differ from
    one another and start with the namespace prefix; one record comes back
    per list. *)
Theorem rebuild_lists_payload self domains cf_lists w new_lists w' t :
  rebuild_lists self domains cf_lists w = (Returned new_lists, w', t) →
  concat (snd <$> created_lists t) = domains ∧
  length new_lists = length (created_lists t) ∧
  NoDup (fst <$> created_lists t) ∧
  ∀ (i : nat) name chunk, created_lists t !! i = Some (name, chunk) →
    name = name_prefix self +:+ " " +:+ Py.str (Z.of_nat i + 1) ∧
    Py.startswith name (name_prefix self) = true ∧
    0 < Py.len chunk ≤ 1000.
Proof.
  intros Hrun.
  destruct (rebuild_lists_returns self domains cf_lists w)
    as (chunks & new_lists' & w'' & t' & Hchunks & Hrun' & Hlen & Hcalls).
  rewrite Hrun in Hrun'. simplify_eq.
  destruct (chunks_cover domains 1000 chunks) as [Hconcat Hsizes]; [lia|done|].
  rewrite (created_lists_of_rebuild_calls self chunks cf_lists t' Hcalls).
  assert (∀ (i : nat) name chunk,
            ((λ p : Z * list string,
                (name_prefix self +:+ " " +:+ Py.str (p.1 + 1), p.2))
               <$> Py.enumerate chunks) !! i = Some (name, chunk) →
            name = name_prefix self +:+ " " +:+ Py.str (Z.of_nat i + 1) ∧
            chunks !! i = Some chunk) as Hnth.
  { intros i name chunk. unfold Py.enumerate.
    rewrite list_lookup_fmap, list_lookup_imap.
    destruct (chunks !! i) as [c|]; [|done]. simpl. by intros [= <- <-]. }
  split; [|split; [|split]].
  - rewrite <- list_fmap_compose. unfold Py.enumerate.
    rewrite <- Hconcat. f_equal.
    apply list_eq. intros i. rewrite list_lookup_fmap, list_lookup_imap.
    by destruct (chunks !! i).
  - rewrite Hlen, length_fmap. unfold Py.enumerate. by rewrite length_imap.
  - apply NoDup_alt. intros i j name.
    rewrite !(list_lookup_fmap fst).
    destruct (_ !! i) as [[ni ci]|] eqn:Hi; [|done].
    destruct (_ !! j) as [[nj cj]|] eqn:Hj; [|done].
    simpl. intros [= <-] [= Hnames].
    apply Hnth in Hi as [-> _]. apply Hnth in Hj as [-> _].
    apply (inj (String.app _)), (inj (String.app _)) in Hnames.
    apply (inj Py.str) in Hnames. lia.
  - intros i name chunk Hi. apply Hnth in Hi as [-> Hchunk].
    split; [done|]. split; [apply startswith_app|].
    by apply (Forall_lookup_1 _ _ _ _ Hsizes Hchunk).
Qed.

(** X20: when the store answers the policy deletion and then the read of
    the lists of the namespace, [delete] downloads nothing, issues the policy
    deletion first, reads the lists once, deletes each list that read
    returned, in order, logs the completion and returns. *)
Theorem delete_removes_policy_then_lists self w deleted w1 cf_lists w2 :
  handle (delete_gateway_policy (name_prefix self +:+ " Block Ads")) w
    = (deleted, w1) →
  handle (get_lists (name_prefix self)) w1 = (cf_lists, w2) →
  ∃ w' t,
    delete self w = (Returned tt, w', t) ∧
    last t = Some (Logged INFO "Deletion completed") ∧
    calls t =
      delete_gateway_policy (name_prefix self +:+ " Block Ads")
      :: get_lists (name_prefix self)
      :: ((λ l, delete_list (list_name l) (list_id l)) <$> cf_lists).
Proof.
  intros Hdel Hget.
  destruct (gather_awaits (λ l, delete_list (list_name l) (list_id l)) unit
              (λ l, await (delete_list (list_name l) (list_id l)))
              cf_lists w2) as (acks & w3 & t3 & Hgd & _ & Hcd).
  { intros l w0. apply (await_returns (delete_list _ _)). }
  exists w3. eexists. split; [|split].
  - unfold delete.
    erewrite bind_returned; [reflexivity|exact (await_handle _ _ _ _ Hdel)|].
    erewrite bind_returned; [reflexivity|reflexivity|].
    erewrite bind_returned; [reflexivity|exact (await_handle _ _ _ _ Hget)|].
    erewrite bind_returned; [reflexivity| |].
    { apply (for_each_pure _ _
        (λ l, await (delete_list (list_name l) (list_id l)) : M W unit)
        (λ l, [Logged INFO ("Deleting list " +:+ list_name l +:+ " - ID:"
                            +:+ list_id l +:+ " ")])).
      reflexivity. }
    erewrite bind_returned; [reflexivity|exact Hgd|reflexivity].
  - rewrite !app_assoc. apply last_snoc.
  - rewrite !calls_app. rewrite calls_concat_logs by done. rewrite Hcd.
    change (calls [Logged INFO "Deletion completed"]) with (@nil call).
    by rewrite app_nil_r.
Qed.

End RebuildExtras.

Lemma delete_removes_policy_then_lists_witness :
  ∃ w' t,
    delete Demo.app Demo.in_sync_two_policies = (Returned tt, w', t) ∧
    last t = Some (Logged INFO "Deletion completed") ∧
    calls t =
      delete_gateway_policy (name_prefix Demo.app +:+ " Block Ads")
      :: get_lists (name_prefix Demo.app)
      :: ((λ l, delete_list (list_name l) (list_id l)) <$> [Demo.old_list]).
Proof.
  eapply (delete_removes_policy_then_lists Demo.app Demo.in_sync_two_policies).
  - vm_compute. reflexivity.
  - vm_compute. reflexivity.
Defined.

Lemma prefix_free_names na nb rest :
  all_chars (λ c, negb (Ascii.eqb c "]")) na = true →
  all_chars (λ c, negb (Ascii.eqb c "]")) nb = true →
  Py.startswith (nb +:+ String "]" rest) (na +:+ "]") = true →
  na = nb.
Proof.
  revert nb. induction na as [|c na IH]; intros [|d nb]; str_simpl;
    cbn [Py.startswith all_chars];
    rewrite ?andb_true_iff, ?negb_true_iff.
  - done.
  - intros _ [Hd _] [Heq _]. congruence.
  - intros [Hc _] _ [Heq _]. rewrite Ascii.eqb_sym in Hc. congruence.
  - intros [_ Hna] [_ Hnb] [Hcd Hrest].
    apply Ascii.eqb_eq in Hcd as ->. f_equal. by apply IH.
Qed.

(** X21: the namespaces of two adlists are apart: when neither name holds a
    closing bracket, a name built on the prefix of one adlist starts with
    the prefix of the other only if the two adlists have the same name. *)
Theorem name_prefix_separates (self other : App) rest :
  all_chars (λ c, negb (Ascii.eqb c "]")) (adlist_name self) = true →
  all_chars (λ c, negb (Ascii.eqb c "]")) (adlist_name other) = true →
  Py.startswith (name_prefix other +:+ rest) (name_prefix self) = true →
  adlist_name self = adlist_name other.
Proof.
  intros Hself Hother. unfold name_prefix.
  rewrite !str_app_assoc. str_simpl. cbn [Py.startswith Ascii.eqb Bool.eqb andb].
  by apply prefix_free_names.
Qed.

Lemma name_prefix_separates_witness :
  adlist_name Demo.app = adlist_name Demo.app.
Proof.
  apply (name_prefix_separates Demo.app Demo.app " 1"); reflexivity.
Defined.

Lemma rebuild_lists_payload_witness :
  ∃ (new_lists : list cf_list) t,
    concat (snd <$> created_lists t) = ["example.com"; "malware.test"] ∧
    length new_lists = length (created_lists t) ∧
    NoDup (fst <$> created_lists t) ∧
    ∀ (i : nat) name chunk, created_lists t !! i = Some (name, chunk) →
      name = name_prefix Demo.app +:+ " " +:+ Py.str (Z.of_nat i + 1) ∧
      Py.startswith name (name_prefix Demo.app) = true ∧
      0 < Py.len chunk ≤ 1000.
Proof.
  eexists _, _.
  eapply (rebuild_lists_payload Demo.app ["example.com"; "malware.test"] []
            Demo.fresh).
  vm_compute. reflexivity.
Defined.

Section ComputeExtras.

Context {W : Type} `{!Remote W}.

Variable replace_pattern_sub : string → string.
Variable idna : string → option string.
Variable domain_pattern_match : string → bool.
Variable ip_pattern_match : string → bool.

(** X22: the first phase of [run] makes no remote call but the downloads;
    the list it hands to the size guards is the final list of
    the block texts joined in order against the allow texts joined in
    order, the first [len(adlist_urls)] results being the block texts. *)
Theorem compute_domains_from_downloads self w :
  ∃ results w1 t0 t1,
    download_all self w = (Returned results, w1, t0) ∧
    length results = length (adlist_urls self ++ whitelist_urls self) ∧
    compute_domains replace_pattern_sub idna domain_pattern_match
      ip_pattern_match self w
    = (Returned
         (domain_list replace_pattern_sub idna domain_pattern_match
            ip_pattern_match
            (Py.join "" (take (length (adlist_urls self)) results))
            (Py.join "" (drop (length (adlist_urls self)) results))),
       w1, t1) ∧
    calls t1 = session_get <$> (adlist_urls self ++ whitelist_urls self).
Proof.
  destruct (download_all_returns self w) as (results & w1 & t0 & Hdl & Hlen & Hc).
  exists results, w1, t0. eexists. split; [done|]. split; [done|]. split.
  - unfold compute_domains. erewrite bind_returned; [reflexivity|exact Hdl|].
    reflexivity.
  - rewrite calls_app, Hc. apply app_nil_r.
Qed.

End ComputeExtras.
